(** * Inventory-Management: a shallow embedding of the Flask back end

    The development follows the layout of the repository:

    - [Py]              the Python values and built-ins the code relies on
                        (truthiness, [str.strip], [len], [int], [float],
                        comparison with [0], [isinstance(_, int)]);
    - [Models]          [models.py]: the [User] and [Product] tables, the
                        constraints declared on their columns, [save], the
                        finder class methods;
    - [AuthService]     [services/auth_service.py];
    - [ProductService]  [services/product_service.py];
    - [App]             the routes of [app.py].

    Modelling choices.
    - A request body is a JSON object, a [gmap string json]; JSON [null] is
      Python [None].
    - Python [str] is [string]; a character is a code point below 256.
    - Python [float] is an IEEE 754 binary64 value, a [spec_float] of the
      standard library with precision 53 and maximal exponent 1024.
    - The data store keeps the attribute values of the saved objects as they
      were assigned and enforces what [models.py] declares: the primary key,
      [unique=True], [nullable=False] and the column defaults.  Conversions a
      particular database driver may apply to a value are not part of the
      source and are not modelled.
    - The columns [created_at] and [updated_at] hold wall-clock time and are
      left out.
    - An exception is a class and, when the source raises it with a literal,
      its message; the text of an exception raised by the run time or by the
      data store is not determined by the source and is kept symbolic. *)

From Stdlib Require Import ZArith List String Ascii Bool Lia.
From Stdlib Require Import Floats.SpecFloat.
From Stdlib Require Import DecimalString DecimalZ.
From stdpp Require Import base option list strings gmap.

Local Open Scope string_scope.
Local Open Scope Z_scope.

(* ===================================================================== *)
(** * Python values, exceptions and built-ins                            *)
(* ===================================================================== *)

Module Py.

(** Binary64. *)
Definition prec : Z := 53.
Definition emax : Z := 1024.
Definition float : Type := spec_float.
Definition float_zero : float := S754_zero false.

(** A value read from JSON. *)
#[local] Unset Elimination Schemes.
Inductive json : Type :=
| JNull
| JBool (b : bool)
| JInt (z : Z)
| JFloat (f : float)
| JStr (s : string)
| JArr (l : list json)
| JObj (l : list (string * json)).
#[local] Set Elimination Schemes.

Inductive exn_class : Type :=
| ValueError
| TypeError
| OverflowError
| AttributeError
| KeyError
| IntegrityError.

(** [exn_text] is [Some m] for [raise C(m)] in the source, [None] when the
    run time or the store raised the exception. *)
Record exn : Type := Exn { exn_cls : exn_class; exn_text : option string }.

(** The outcome of a computation that may raise. *)
Inductive result (A : Type) : Type :=
| Ok (a : A)
| Raise (e : exn).
Arguments Ok {A} a.
Arguments Raise {A} e.

#[export] Instance result_ret : MRet result := fun _ a => Ok a.
#[export] Instance result_bind : MBind result := fun _ _ f m =>
  match m with
  | Ok a => f a
  | Raise e => Raise e
  end.

Definition raise {A} (c : exn_class) : result A := Raise (Exn c None).
Definition raise_msg {A} (c : exn_class) (m : string) : result A :=
  Raise (Exn c (Some m)).

(** A message built by the source: a literal, an f-string ending in
    [str(e)] for an exception whose text the source does not fix, or an
    f-string around a value that is not a string. *)
Inductive text : Type :=
| Lit (s : string)
| Fstr (prefix : string) (e : exn)
| Fval (prefix : string) (v : json) (suffix : string).

(** [f"{prefix}{str(e)}"]. *)
Definition fstr (prefix : string) (e : exn) : text :=
  match exn_text e with
  | Some m => Lit (prefix +:+ m)
  | None => Fstr prefix e
  end.

(** [str(e)]. *)
Definition str_exn (e : exn) : text := fstr "" e.

(** [f"{prefix}{v}{suffix}"]. *)
Definition fval (prefix : string) (v : json) (suffix : string) : text :=
  match v with
  | JStr s => Lit (prefix +:+ s +:+ suffix)
  | _ => Fval prefix v suffix
  end.

(** [sep.join(l)]. *)
Fixpoint join (sep : string) (l : list string) : string :=
  match l with
  | [] => ""
  | [x] => x
  | x :: l' => x +:+ sep +:+ join sep l'
  end.

(** [except (ValueError, TypeError)]. *)
Definition is_value_or_type_error (e : exn) : bool :=
  match exn_cls e with
  | ValueError | TypeError => true
  | _ => false
  end.

Definition is_value_error (e : exn) : bool :=
  match exn_cls e with
  | ValueError => true
  | _ => false
  end.

(** ** Truthiness: [bool(v)], as used by [if v] and [not v]. *)
Definition float_is_zero (f : float) : bool :=
  match f with
  | S754_zero _ => true
  | _ => false
  end.

Definition truthy (v : json) : bool :=
  match v with
  | JNull => false
  | JBool b => b
  | JInt z => negb (z =? 0)
  | JFloat f => negb (float_is_zero f)
  | JStr s => negb (String.eqb s "")
  | JArr l => match l with [] => false | _ => true end
  | JObj l => match l with [] => false | _ => true end
  end.

(** ** Strings *)

Definition code (c : ascii) : N := N_of_ascii c.

(** [str.isspace] on one code point below 256. *)
Definition isspace (c : ascii) : bool :=
  let n := code c in
  ((9 <=? n) && (n <=? 13) || (28 <=? n) && (n <=? 32)
   || (n =? 133) || (n =? 160))%N.

(** The ASCII white space skipped by the number parsers. *)
Definition isspace_ascii (c : ascii) : bool :=
  let n := code c in ((9 <=? n) && (n <=? 13) || (n =? 32))%N.

Fixpoint lstrip (sp : ascii -> bool) (s : string) : string :=
  match s with
  | String c s' => if sp c then lstrip sp s' else s
  | EmptyString => EmptyString
  end.

(** Drops the trailing characters satisfying [sp]. *)
Fixpoint rstrip (sp : ascii -> bool) (s : string) : string :=
  match s with
  | String c s' =>
      match rstrip sp s' with
      | EmptyString => if sp c then EmptyString else String c EmptyString
      | r => String c r
      end
  | EmptyString => EmptyString
  end.

(** [s.strip()]. *)
Definition strip (s : string) : string := rstrip isspace (lstrip isspace s).

(** [len(s)]. *)
Definition len (s : string) : Z := Z.of_nat (String.length s).

(** [v.strip()]: only a [str] has the method. *)
Definition str_strip (v : json) : result string :=
  match v with
  | JStr s => Ok (strip s)
  | _ => raise AttributeError
  end.

Definition is_digit (c : ascii) : bool :=
  let n := code c in ((48 <=? n) && (n <=? 57))%N.

Definition digit_val (c : ascii) : Z := Z.of_N (code c) - 48.

Definition is_ascii_string (s : string) : bool :=
  forallb (fun c => (code c <? 128)%N) (list_ascii_of_string s).

(** Before parsing a number, a string with a character outside ASCII has
    its white space replaced by blanks; an ASCII string is left as it is. *)
Definition spaces_to_ascii (s : string) : string :=
  if is_ascii_string s then s
  else string_of_list_ascii
         (map (fun c => if isspace c then " "%char else c)
              (list_ascii_of_string s)).

Definition number_body (s : string) : string :=
  let t := spaces_to_ascii s in
  rstrip isspace_ascii (lstrip isspace_ascii t).

(** Digits with single underscores between them: [acc] is the value read so
    far, [after_digit] tells whether the previous character was a digit.
    Returns the value and the number of digits read. *)
Fixpoint digits_from (s : string) (acc : Z) (n : Z) (after_digit : bool)
  : option (Z * Z) :=
  match s with
  | EmptyString => if after_digit then Some (acc, n) else None
  | String c s' =>
      if is_digit c then digits_from s' (10 * acc + digit_val c) (n + 1) true
      else if (c =? "_")%char then
        if after_digit then digits_from s' acc n false else None
      else None
  end.

(** A non-empty run of digits. *)
Definition digits (s : string) : option (Z * Z) :=
  match s with
  | EmptyString => None
  | _ => digits_from s 0 0 false
  end.

Definition split_sign (s : string) : bool * string :=
  match s with
  | String "-" s' => (true, s')
  | String "+" s' => (false, s')
  | _ => (false, s)
  end.

(** [int(s)] for a string, base 10. *)
Definition int_of_str (s : string) : option Z :=
  let '(neg, body) := split_sign (number_body s) in
  match digits body with
  | Some (v, _) => Some (if neg then - v else v)
  | None => None
  end.

(** ** Floats *)

(** The float nearest to the integer [z] (ties to even). *)
Definition float_of_Z (z : Z) : float := binary_normalize prec emax z 0 false.

(** The float nearest to [n * 10 ^ e10], for [0 <= n], with the sign [neg].
    For a negative exponent the quotient is computed with more than [prec]
    bits and a sticky last bit, so that rounding it rounds the exact value. *)
Definition float_of_decimal (neg : bool) (n e10 : Z) : float :=
  let sgn := if neg then (-1) else 1 in
  if 0 <=? e10 then binary_normalize prec emax (sgn * (n * 10 ^ e10)) 0 neg
  else
    let d := 10 ^ (- e10) in
    let s := Z.max 0 (Z.log2 d + 58 - Z.log2 n) in
    let q := (n * 2 ^ s) / d in
    let sticky := if (n * 2 ^ s) mod d =? 0 then 0 else 1 in
    binary_normalize prec emax (sgn * (2 * q + sticky)) (- s - 1) neg.

Definition lower (c : ascii) : ascii :=
  let n := code c in
  if ((65 <=? n) && (n <=? 90))%N then ascii_of_N (n + 32) else c.

Fixpoint lower_string (s : string) : string :=
  match s with
  | String c s' => String (lower c) (lower_string s')
  | EmptyString => EmptyString
  end.

(** Splits at the first character satisfying [p], which is dropped. *)
Fixpoint split_at (p : ascii -> bool) (s : string) : string * option string :=
  match s with
  | EmptyString => (EmptyString, None)
  | String c s' =>
      if p c then (EmptyString, Some s')
      else let '(a, b) := split_at p s' in (String c a, b)
  end.

(** An optional run of digits: the empty string reads as no digit. *)
Definition digits_opt (s : string) : option (Z * Z) :=
  match s with
  | EmptyString => Some (0, 0)
  | _ => digits s
  end.

(** The exponent part, after the letter [e]. *)
Definition exponent (s : string) : option Z :=
  let '(neg, body) := split_sign s in
  match digits body with
  | Some (v, _) => Some (if neg then - v else v)
  | None => None
  end.

(** [digits [. digits]] or [. digits]: the digits as one integer and the
    number of digits after the point. *)
Definition mantissa (s : string) : option (Z * Z) :=
  let '(ip, fp) := split_at (fun c => (c =? ".")%char) s in
  match fp with
  | None => match digits ip with Some (v, _) => Some (v, 0) | None => None end
  | Some fp =>
      match digits_opt ip, digits_opt fp with
      | Some (iv, ni), Some (fv, nf) =>
          if ni + nf =? 0 then None else Some (iv * 10 ^ nf + fv, nf)
      | _, _ => None
      end
  end.

(** [float(s)] for a string. *)
Definition float_of_str (s : string) : option float :=
  let '(neg, body) := split_sign (number_body s) in
  let low := lower_string body in
  if String.eqb low "inf" || String.eqb low "infinity" then
    Some (S754_infinity neg)
  else if String.eqb low "nan" then Some S754_nan
  else
    let '(m, e) := split_at (fun c => (lower c =? "e")%char) body in
    match mantissa m, match e with Some e => exponent e | None => Some 0 end with
    | Some (n, nf), Some x => Some (float_of_decimal neg n (x - nf))
    | _, _ => None
    end.

(** Truncation towards zero. *)
Definition trunc_float (s : bool) (m : positive) (e : Z) : Z :=
  let a := if 0 <=? e then Z.pos m * 2 ^ e else Z.shiftr (Z.pos m) (- e) in
  if s then - a else a.

(** ** Conversions and comparisons on values *)

(** [int(v)]. *)
Definition int (v : json) : result Z :=
  match v with
  | JBool b => Ok (if b then 1 else 0)
  | JInt z => Ok z
  | JFloat (S754_zero _) => Ok 0
  | JFloat (S754_infinity _) => raise OverflowError
  | JFloat S754_nan => raise ValueError
  | JFloat (S754_finite s m e) => Ok (trunc_float s m e)
  | JStr s =>
      match int_of_str s with
      | Some z => Ok z
      | None => raise ValueError
      end
  | JNull | JArr _ | JObj _ => raise TypeError
  end.

(** [float(v)]. *)
Definition to_float (v : json) : result float :=
  match v with
  | JBool b => Ok (float_of_Z (if b then 1 else 0))
  | JInt z =>
      match float_of_Z z with
      | S754_infinity _ => raise OverflowError
      | f => Ok f
      end
  | JFloat f => Ok f
  | JStr s =>
      match float_of_str s with
      | Some f => Ok f
      | None => raise ValueError
      end
  | JNull | JArr _ | JObj _ => raise TypeError
  end.

Definition float_lt0 (f : float) : bool := SFltb f float_zero.

(** [v < 0]. *)
Definition lt0 (v : json) : result bool :=
  match v with
  | JBool _ => Ok false
  | JInt z => Ok (z <? 0)
  | JFloat f => Ok (float_lt0 f)
  | JNull | JStr _ | JArr _ | JObj _ => raise TypeError
  end.

(** [v > 0]. *)
Definition gt0 (v : json) : result bool :=
  match v with
  | JBool b => Ok b
  | JInt z => Ok (0 <? z)
  | JFloat f => Ok (SFltb float_zero f)
  | JNull | JStr _ | JArr _ | JObj _ => raise TypeError
  end.

(** [isinstance(v, int)]; [bool] is a subclass of [int]. *)
Definition isinstance_int (v : json) : bool :=
  match v with
  | JBool _ | JInt _ => true
  | _ => false
  end.

(** [str(z)] for an integer. *)
Definition str_of_int (z : Z) : string := NilZero.string_of_int (Z.to_int z).

(** [d[k]] and [d.get(k)] on a JSON object. *)
Definition getitem (d : gmap string json) (k : string) : result json :=
  match d !! k with
  | Some v => Ok v
  | None => raise KeyError
  end.

Definition get (d : gmap string json) (k : string) : json :=
  default JNull (d !! k).

(** [k in d]. *)
Definition contains (d : gmap string json) (k : string) : bool :=
  bool_decide (is_Some (d !! k)).

(** [not d] for a JSON object. *)
Definition is_empty (d : gmap string json) : bool :=
  bool_decide (d = ∅).

End Py.

(* ===================================================================== *)
(** * models.py                                                          *)
(* ===================================================================== *)

Module Models.
Import Py.

(** [werkzeug.security]: the password hash is a collaborator of the code. *)
Class Werkzeug : Type := {
  generate_password_hash : string -> string;
  check_password_hash : string -> string -> bool
}.

(** The substring operator of the store, used by [search_by_name]. *)
Class Sql : Type := {
  sql_contains : json -> string -> bool
}.

(** A row of [users]. *)
Record User : Type := mkUser {
  User_id : Z;
  User_username : json;
  User_password_hash : string;
  User_email : json;
  User_is_active : bool
}.

(** A row of [products]. *)
Record Product : Type := mkProduct {
  Product_id : Z;
  Product_name : json;
  Product_type : json;
  Product_sku : json;
  Product_image_url : json;
  Product_description : json;
  Product_quantity : json;
  Product_price : json;
  Product_is_active : bool;
  Product_created_by : option Z
}.

(** The database behind [db.session]: both tables, in insertion order. *)
Record Store : Type := mkStore {
  users : list User;
  products : list Product
}.

Definition set_users (us : list User) (s : Store) : Store :=
  {| users := us; products := products s |}.

Definition set_products (ps : list Product) (s : Store) : Store :=
  {| users := users s; products := ps |}.

(** An object built by [User.__init__], before it is saved. *)
Record NewUser : Type := mkNewUser {
  nu_username : json;
  nu_password_hash : string;
  nu_email : json
}.

(** An object built by [Product.__init__], before it is saved: [id] and
    [is_active] are not set by the constructor. *)
Record NewProduct : Type := mkNewProduct {
  np_name : json;
  np_sku : json;
  np_quantity : json;
  np_price : json;
  np_type : json;
  np_image_url : json;
  np_description : json;
  np_created_by : option Z
}.

(** Equality of a column value and a bound parameter: both of the same
    scalar JSON type and equal.  NULL equals nothing. *)
Definition sql_eq (a b : json) : bool :=
  match a, b with
  | JStr x, JStr y => String.eqb x y
  | JInt x, JInt y => x =? y
  | JBool x, JBool y => Bool.eqb x y
  | JFloat x, JFloat y => SFeqb x y
  | _, _ => false
  end.

Definition is_null (v : json) : bool :=
  match v with
  | JNull => true
  | _ => false
  end.

(** The next primary key: one more than the largest in the table. *)
Definition next_id (ids : list Z) : Z := 1 + foldr Z.max 0 ids.

(** ** User *)

Section WithWerkzeug.
Context `{Werkzeug}.

(** [User.set_password]: hashing needs a [str]. *)
Definition set_password (password : json) : result string :=
  match password with
  | JStr p => Ok (generate_password_hash p)
  | _ => raise AttributeError
  end.

(** [User.__init__]. *)
Definition User__init__ (username password email : json) : result NewUser :=
  h ← set_password password;
  Ok {| nu_username := username; nu_password_hash := h; nu_email := email |}.

(** [User.check_password]. *)
Definition check_password (u : User) (password : json) : result bool :=
  match password with
  | JStr p => Ok (check_password_hash (User_password_hash u) p)
  | _ => raise AttributeError
  end.

End WithWerkzeug.

(** [save] of a new user: INSERT.  [username] is [nullable=False] and
    [unique=True], [email] is [unique=True] and nullable, [is_active]
    defaults to [True].  On a violation nothing is stored. *)
Definition User_save_new (u : NewUser) (s : Store) : result (User * Store) :=
  if is_null (nu_username u) then raise IntegrityError
  else if existsb (fun r => sql_eq (User_username r) (nu_username u)) (users s)
  then raise IntegrityError
  else if existsb (fun r => sql_eq (User_email r) (nu_email u)) (users s)
  then raise IntegrityError
  else
    let row := {| User_id := next_id (map User_id (users s));
                  User_username := nu_username u;
                  User_password_hash := nu_password_hash u;
                  User_email := nu_email u;
                  User_is_active := true |} in
    Ok (row, set_users ((users s ++ [row])%list) s).

(** [User.find_by_username]. *)
Definition User_find_by_username (username : json) (s : Store) : option User :=
  find (fun r => sql_eq (User_username r) username) (users s).

(** [User.query.filter_by(email=email).first()]. *)
Definition User_find_by_email (email : json) (s : Store) : option User :=
  find (fun r => sql_eq (User_email r) email) (users s).

(** [User.find_by_id]. *)
Definition User_find_by_id (user_id : Z) (s : Store) : option User :=
  find (fun r => User_id r =? user_id) (users s).

(** ** Product *)

(** [Product.__init__]. *)
Definition Product__init__ (name sku quantity price : json)
    (type image_url description : json) (created_by : option Z) : NewProduct :=
  {| np_name := name; np_sku := sku; np_quantity := quantity;
     np_price := price; np_type := type; np_image_url := image_url;
     np_description := description; np_created_by := created_by |}.

(** [save] of a new product: INSERT.  [name], [sku] and [price] are
    [nullable=False], [sku] is [unique=True] over the whole table, a
    [quantity] of [None] takes the default [0], [is_active] defaults to
    [True].  On a violation nothing is stored. *)
Definition Product_save_new (p : NewProduct) (s : Store)
  : result (Product * Store) :=
  if is_null (np_name p) || is_null (np_sku p) || is_null (np_price p)
  then raise IntegrityError
  else if existsb (fun r => sql_eq (Product_sku r) (np_sku p)) (products s)
  then raise IntegrityError
  else
    let row := {| Product_id := next_id (map Product_id (products s));
                  Product_name := np_name p;
                  Product_type := np_type p;
                  Product_sku := np_sku p;
                  Product_image_url := np_image_url p;
                  Product_description := np_description p;
                  Product_quantity :=
                    if is_null (np_quantity p) then JInt 0 else np_quantity p;
                  Product_price := np_price p;
                  Product_is_active := true;
                  Product_created_by := np_created_by p |} in
    Ok (row, set_products ((products s ++ [row])%list) s).

(** [UPDATE ... WHERE id = i]: the row with the key [i] becomes [p]. *)
Definition replace_row (i : Z) (p : Product) (r : Product) : Product :=
  if Product_id r =? i then p else r.

(** [save] of a loaded product: UPDATE of the row with its primary key. *)
Definition Product_save (p : Product) (s : Store) : result Store :=
  if is_null (Product_name p) || is_null (Product_sku p)
     || is_null (Product_quantity p) || is_null (Product_price p)
  then raise IntegrityError
  else if existsb (fun r => negb (Product_id r =? Product_id p)
                            && sql_eq (Product_sku r) (Product_sku p))
                  (products s)
  then raise IntegrityError
  else
    Ok (set_products (map (replace_row (Product_id p) p) (products s)) s).

Definition with_quantity (q : json) (p : Product) : Product :=
  {| Product_id := Product_id p; Product_name := Product_name p;
     Product_type := Product_type p; Product_sku := Product_sku p;
     Product_image_url := Product_image_url p;
     Product_description := Product_description p;
     Product_quantity := q; Product_price := Product_price p;
     Product_is_active := Product_is_active p;
     Product_created_by := Product_created_by p |}.

Definition with_is_active (b : bool) (p : Product) : Product :=
  {| Product_id := Product_id p; Product_name := Product_name p;
     Product_type := Product_type p; Product_sku := Product_sku p;
     Product_image_url := Product_image_url p;
     Product_description := Product_description p;
     Product_quantity := Product_quantity p; Product_price := Product_price p;
     Product_is_active := b;
     Product_created_by := Product_created_by p |}.

(** [Product.update_quantity]: returns the updated object and store. *)
Definition update_quantity (p : Product) (new_quantity : json) (s : Store)
  : result (Product * Store) :=
  neg ← lt0 new_quantity;
  if neg : bool then raise_msg ValueError "Quantity cannot be negative"
  else
    let p' := with_quantity new_quantity p in
    s' ← Product_save p' s;
    Ok (p', s').

(** [Product.is_in_stock]. *)
Definition is_in_stock (p : Product) : result bool := gt0 (Product_quantity p).

Definition json_of_option_Z (o : option Z) : json :=
  match o with
  | Some z => JInt z
  | None => JNull
  end.

(** [Product.to_dict], which is also [product_to_dict] of [app.py]. *)
Definition Product_to_dict (p : Product) : result json :=
  in_stock ← is_in_stock p;
  Ok (JObj [("id", JInt (Product_id p));
            ("name", Product_name p);
            ("type", Product_type p);
            ("sku", Product_sku p);
            ("image_url", Product_image_url p);
            ("description", Product_description p);
            ("quantity", Product_quantity p);
            ("price", Product_price p);
            ("is_active", JBool (Product_is_active p));
            ("in_stock", JBool in_stock);
            ("created_by", json_of_option_Z (Product_created_by p))]).

(** [Product.find_by_sku]: only active products are looked at. *)
Definition find_by_sku (sku : json) (s : Store) : option Product :=
  find (fun r => sql_eq (Product_sku r) sku && Product_is_active r)
       (products s).

(** [Product.query.get(id)]. *)
Definition Product_get (product_id : Z) (s : Store) : option Product :=
  find (fun r => Product_id r =? product_id) (products s).

(** [Product.query.filter_by(is_active=True).all()]. *)
Definition all_active (s : Store) : list Product :=
  filter (fun r => Product_is_active r = true) (products s).

(** [Product.search_by_name]. *)
Definition search_by_name `{Sql} (search_term : string) (s : Store)
  : list Product :=
  filter (fun r => sql_contains (Product_name r) search_term = true
                   ∧ Product_is_active r = true) (products s).

End Models.

(* ===================================================================== *)
(** * flask_jwt_extended                                                 *)
(* ===================================================================== *)

Module Jwt.

(** A token signed with the server's key; the signature is abstracted. *)
Record token : Type := Token { sub : string }.

(** [create_access_token(identity=...)]. *)
Definition create_access_token (identity : string) : token :=
  {| sub := identity |}.

(** What the verification of the [Authorization] header finds. *)
Inductive bearer : Type :=
| Missing
| Invalid
| Expired (t : token)
| Valid (t : token).

(** [get_jwt_identity()]: the subject of the verified token, if any. *)
Definition get_jwt_identity (b : bearer) : option string :=
  match b with
  | Valid t => Some (sub t)
  | _ => None
  end.

End Jwt.

(* ===================================================================== *)
(** * services/product_service.py                                        *)
(* ===================================================================== *)

Module ProductService.
Import Py Models.

Definition required_fields : list string := ["name"; "sku"; "quantity"; "price"].

(** [ProductService.validate_product_data]. *)
Definition validate_product_data (data : gmap string json)
  : result (bool * list string) :=
  if is_empty data then Ok (false, ["No data provided"])
  else
    let errors : list string :=
      foldl (fun errors field =>
               if contains data field then errors
               else (errors ++ [field +:+ " is required"])%list)
            [] required_fields in
    errors ←
      match data !! "name" with
      | Some name =>
          short ← (if negb (truthy name) then Ok true
                   else t ← str_strip name; Ok (len t <? 2));
          Ok (if short : bool
              then (errors ++ ["Product name must be at least 2 characters long"])%list
              else errors)
      | None => Ok errors
      end;
    errors ←
      match data !! "sku" with
      | Some sku =>
          short ← (if negb (truthy sku) then Ok true
                   else t ← str_strip sku; Ok (len t <? 3));
          Ok (if short : bool
              then (errors ++ ["SKU must be at least 3 characters long"])%list
              else errors)
      | None => Ok errors
      end;
    errors ←
      match data !! "quantity" with
      | Some q =>
          match int q with
          | Ok quantity =>
              Ok (if quantity <? 0
                  then (errors ++ ["Quantity cannot be negative"])%list
                  else errors)
          | Raise e =>
              if is_value_or_type_error e
              then Ok ((errors ++ ["Quantity must be a valid integer"])%list)
              else Raise e
          end
      | None => Ok errors
      end;
    errors ←
      match data !! "price" with
      | Some p =>
          match to_float p with
          | Ok price =>
              Ok (if float_lt0 price
                  then (errors ++ ["Price cannot be negative"])%list
                  else errors)
          | Raise e =>
              if is_value_or_type_error e
              then Ok ((errors ++ ["Price must be a valid number"])%list)
              else Raise e
          end
      | None => Ok errors
      end;
    Ok (bool_decide (errors = []), errors).

(** What the service methods return: [(success, message, product)]. *)
Definition outcome : Type := bool * text * option Product.

(** [ProductService.create_product]. *)
Definition create_product (data : gmap string json) (created_by : option Z)
    (s : Store) : outcome * Store :=
  let body : result (outcome * Store) :=
    '(is_valid, errors) ← validate_product_data data;
    if negb is_valid then Ok ((false, Lit (join "; " errors), None), s)
    else
      sku ← getitem data "sku";
      match find_by_sku sku s with
      | Some _ =>
          Ok ((false, fval "Product with SKU " sku " already exists", None), s)
      | None =>
          name ← getitem data "name";
          quantity ← getitem data "quantity";
          price ← getitem data "price";
          let product :=
            Product__init__ name sku quantity price
              (get data "type") (get data "image_url")
              (get data "description") created_by in
          '(product, s') ← Product_save_new product s;
          Ok ((true, Lit "Product created successfully", Some product), s')
      end in
  match body with
  | Ok r => r
  | Raise e => ((false, fstr "Product creation failed: " e, None), s)
  end.

(** [ProductService.update_product_quantity]. *)
Definition update_product_quantity (product_id : Z) (new_quantity : json)
    (s : Store) : outcome * Store :=
  let body : result (outcome * Store) :=
    match Product_get product_id s with
    | None => Ok ((false, Lit "Product not found", None), s)
    | Some product =>
        if negb (Product_is_active product)
        then Ok ((false, Lit "Product is inactive", None), s)
        else
          invalid ← (if negb (isinstance_int new_quantity) then Ok true
                     else lt0 new_quantity);
          if invalid : bool
          then Ok ((false, Lit "Quantity must be a non-negative integer", None), s)
          else
            '(product, s') ← update_quantity product new_quantity s;
            Ok ((true, Lit "Quantity updated successfully", Some product), s')
    end in
  match body with
  | Ok r => r
  | Raise e =>
      if is_value_error e then ((false, str_exn e, None), s)
      else ((false, fstr "Quantity update failed: " e, None), s)
  end.

(** [ProductService.get_all_products]: the products and their number. *)
Definition get_all_products `{Sql} (search : option string) (s : Store)
  : list Product * Z :=
  let products :=
    match search with
    | Some term =>
        if negb (String.eqb term "") then search_by_name term s
        else all_active s
    | None => all_active s
    end in
  (products, Z.of_nat (length products)).

(** [ProductService.get_product_by_id]. *)
Definition get_product_by_id (product_id : Z) (s : Store) : option Product :=
  find (fun r => (Product_id r =? product_id) && Product_is_active r)
       (products s).

End ProductService.

(* ===================================================================== *)
(** * services/auth_service.py                                           *)
(* ===================================================================== *)

Module AuthService.
Import Py Models Jwt.

Section WithWerkzeug.
Context `{Werkzeug}.

(** [AuthService.register_user]: [(success, message, user)]. *)
Definition register_user (username password email : json) (s : Store)
  : (bool * text * option User) * Store :=
  let body : result ((bool * text * option User) * Store) :=
    match User_find_by_username username s with
    | Some _ => Ok ((false, Lit "User already exists", None), s)
    | None =>
        user ← User__init__ username password email;
        '(user, s') ← User_save_new user s;
        Ok ((true, Lit "User created successfully", Some user), s')
    end in
  match body with
  | Ok r => r
  | Raise e => ((false, fstr "Registration failed: " e, None), s)
  end.

(** [AuthService.authenticate_user]: [(success, message, token, user)]. *)
Definition authenticate_user (username password : json) (s : Store)
  : bool * text * option token * option User :=
  let body : result (bool * text * option token * option User) :=
    match User_find_by_username username s with
    | None => Ok (false, Lit "User not found", None, None)
    | Some user =>
        if negb (User_is_active user)
        then Ok (false, Lit "User account is deactivated", None, None)
        else
          good ← check_password user password;
          if negb good then Ok (false, Lit "Invalid password", None, None)
          else
            let access_token :=
              create_access_token (str_of_int (User_id user)) in
            Ok (true, Lit "Login successful", Some access_token, Some user)
    end in
  match body with
  | Ok r => r
  | Raise e => (false, fstr "Authentication failed: " e, None, None)
  end.

End WithWerkzeug.

(** [AuthService.get_current_user]: any exception gives [None]. *)
Definition get_current_user (b : bearer) (s : Store) : option User :=
  match get_jwt_identity b with
  | Some user_id =>
      if negb (String.eqb user_id "") then
        match int_of_str user_id with
        | Some n => User_find_by_id n s
        | None => None
        end
      else None
  | None => None
  end.

End AuthService.

(* ===================================================================== *)
(** * app.py                                                             *)
(* ===================================================================== *)

Module App.
Import Py Models Jwt.

(** The JSON document of a response. *)
Inductive body : Type :=
| Msg (t : text)                         (* [{"msg": t}] *)
| Data (v : json)                        (* a serialized object or list *)
| UserCreated (user : json)              (* [{"msg": ..., "user": user}] *)
| AccessToken (t : token) (user : json)  (* [{"access_token": t, "user": user}] *)
| ProductAdded (product_id : Z).         (* [{"message": ..., "product_id": id}] *)

(** A view returns [(jsonify(...), status)]. *)
Definition response : Type := body * Z.

(** The handlers registered for 404 and for an uncaught exception. *)
Definition not_found : response := (Msg (Lit "Resource not found"), 404).
Definition internal_error : response := (Msg (Lit "Internal server error"), 500).

(** [user_to_dict]; [total_products] counts the products the user created. *)
Definition user_to_dict (user : User) (s : Store) : json :=
  JObj [("id", JInt (User_id user));
        ("username", User_username user);
        ("email", User_email user);
        ("is_active", JBool (User_is_active user));
        ("total_products",
         JInt (Z.of_nat (length (filter
                  (fun p => Product_created_by p = Some (User_id user))
                  (products s)))))].

Definition product_to_dict : Product -> result json := Product_to_dict.

(** [@jwt_required()] with the three loaders of [app.py]. *)
Definition jwt_required (b : bearer) (view : string -> response * Store)
    (s : Store) : response * Store :=
  match b with
  | Missing => ((Msg (Lit "Authorization token is required"), 401), s)
  | Invalid => ((Msg (Lit "Invalid token"), 401), s)
  | Expired _ => ((Msg (Lit "Token has expired"), 401), s)
  | Valid t => view (sub t)
  end.

Section WithWerkzeug.
Context `{Werkzeug}.

(** [POST /register]. *)
Definition register (data : gmap string json) (s : Store) : response * Store :=
  if is_empty data || negb (truthy (get data "username"))
     || negb (truthy (get data "password"))
  then ((Msg (Lit "Missing username or password"), 400), s)
  else
    match User_find_by_username (get data "username") s with
    | Some _ => ((Msg (Lit "User already exists"), 409), s)
    | None =>
        let email := get data "email" in
        if truthy email && bool_decide (is_Some (User_find_by_email email s))
        then ((Msg (Lit "Email already registered"), 409), s)
        else
          let body : result (User * Store) :=
            new_user ← User__init__ (get data "username")
                                    (get data "password") email;
            User_save_new new_user s in
          match body with
          | Ok (new_user, s') => ((UserCreated (user_to_dict new_user s'), 201), s')
          | Raise e => ((Msg (fstr "Error creating user: " e), 500), s)
          end
    end.

(** [POST /login]. *)
Definition login (data : gmap string json) (s : Store) : response :=
  if is_empty data || negb (truthy (get data "username"))
     || negb (truthy (get data "password"))
  then (Msg (Lit "Missing username or password"), 400)
  else
    match User_find_by_username (get data "username") s with
    | Some user =>
        match check_password user (get data "password") with
        | Ok true =>
            if negb (User_is_active user)
            then (Msg (Lit "Account is deactivated"), 403)
            else
              let access_token :=
                create_access_token (str_of_int (User_id user)) in
              (AccessToken access_token (user_to_dict user s), 200)
        | Ok false => (Msg (Lit "Bad username or password"), 401)
        | Raise _ => internal_error
        end
    | None => (Msg (Lit "Bad username or password"), 401)
    end.

End WithWerkzeug.

(** [GET /profile]. *)
Definition get_user_profile (b : bearer) (s : Store) : response * Store :=
  jwt_required b (fun current_user_id =>
    match int_of_str current_user_id with
    | None => (internal_error, s)
    | Some n =>
        match User_find_by_id n s with
        | None => ((Msg (Lit "User not found"), 404), s)
        | Some user => ((Data (user_to_dict user s), 200), s)
        end
    end) s.

(** [POST /products]. *)
Definition add_product (b : bearer) (data : gmap string json) (s : Store)
  : response * Store :=
  jwt_required b (fun current_user_id =>
    if negb (forallb (contains data) ["name"; "sku"; "quantity"; "price"])
    then ((Msg (Lit "Missing required product fields"), 400), s)
    else
      let sku := get data "sku" in
      match find_by_sku sku s with
      | Some _ =>
          ((Msg (fval "Product with SKU " sku " already exists"), 409), s)
      | None =>
          let body : result (Product * Store) :=
            created_by ← match int_of_str current_user_id with
                         | Some n => Ok n
                         | None => raise ValueError
                         end;
            let new_product :=
              Product__init__ (get data "name") sku (get data "quantity")
                (get data "price") (get data "type") (get data "image_url")
                (get data "description") (Some created_by) in
            Product_save_new new_product s in
          match body with
          | Ok (new_product, s') =>
              ((ProductAdded (Product_id new_product), 201), s')
          | Raise e => ((Msg (fstr "Error adding product: " e), 500), s)
          end
      end) s.

(** The assignments [product.name = data['name']], ... of [update_product]. *)
Definition assign_fields (data : gmap string json) (p : Product) : Product :=
  {| Product_id := Product_id p;
     Product_name := default (Product_name p) (data !! "name");
     Product_type := default (Product_type p) (data !! "type");
     Product_sku := Product_sku p;
     Product_image_url := default (Product_image_url p) (data !! "image_url");
     Product_description :=
       default (Product_description p) (data !! "description");
     Product_quantity := Product_quantity p;
     Product_price := default (Product_price p) (data !! "price");
     Product_is_active := Product_is_active p;
     Product_created_by := Product_created_by p |}.

(** The two [except] clauses shared by the update views. *)
Definition update_failed (prefix : string) (e : exn) : response :=
  if is_value_error e then (Msg (str_exn e), 400)
  else (Msg (fstr prefix e), 500).

(** [PUT /products/<id>]. *)
Definition update_product (b : bearer) (id : Z) (data : gmap string json)
    (s : Store) : response * Store :=
  jwt_required b (fun _ =>
    match Product_get id s with
    | None => (not_found, s)
    | Some product =>
        if is_empty data then ((Msg (Lit "No data provided"), 400), s)
        else
          let product := assign_fields data product in
          let updated : result (Product * Store) :=
            match data !! "quantity" with
            | Some q => update_quantity product q s
            | None => Ok (product, s)
            end in
          match updated with
          | Raise e => (update_failed "Error updating product: " e, s)
          | Ok (product, s1) =>
              match Product_save product s1 with
              | Raise e => (update_failed "Error updating product: " e, s1)
              | Ok s2 =>
                  match product_to_dict product with
                  | Ok d => ((Data d, 200), s2)
                  | Raise e =>
                      (update_failed "Error updating product: " e, s2)
                  end
              end
          end
    end) s.

(** [PUT /products/<id>/quantity]. *)
Definition update_product_quantity (b : bearer) (id : Z)
    (data : gmap string json) (s : Store) : response * Store :=
  jwt_required b (fun _ =>
    match Product_get id s with
    | None => (not_found, s)
    | Some product =>
        if negb (contains data "quantity")
           || negb (isinstance_int (get data "quantity"))
        then ((Msg (Lit "Invalid or missing quantity"), 400), s)
        else
          match update_quantity product (get data "quantity") s with
          | Raise e => (update_failed "Error updating quantity: " e, s)
          | Ok (product, s') =>
              match product_to_dict product with
              | Ok d => ((Data d, 200), s')
              | Raise e => (update_failed "Error updating quantity: " e, s')
              end
          end
    end) s.

(** [[product_to_dict(p) for p in products]]. *)
Fixpoint products_list (l : list Product) : result (list json) :=
  match l with
  | [] => Ok []
  | p :: l' =>
      d ← product_to_dict p;
      ds ← products_list l';
      Ok (d :: ds)
  end.

(** [GET /products]. *)
Definition get_products `{Sql} (b : bearer) (search : string) (s : Store)
  : response * Store :=
  jwt_required b (fun _ =>
    let found :=
      if negb (String.eqb search "") then search_by_name search s
      else all_active s in
    match products_list found with
    | Ok l => ((Data (JArr l), 200), s)
    | Raise e => ((Msg (fstr "Error fetching products: " e), 500), s)
    end) s.

(** [GET /products/<id>]. *)
Definition get_product (b : bearer) (id : Z) (s : Store) : response * Store :=
  jwt_required b (fun _ =>
    match Product_get id s with
    | None => (not_found, s)
    | Some product =>
        match product_to_dict product with
        | Ok d => ((Data d, 200), s)
        | Raise _ => (internal_error, s)
        end
    end) s.

(** [DELETE /products/<id>]: the product is marked inactive. *)
Definition delete_product (b : bearer) (id : Z) (s : Store)
  : response * Store :=
  jwt_required b (fun _ =>
    match Product_get id s with
    | None => (not_found, s)
    | Some product =>
        match Product_save (with_is_active false product) s with
        | Ok s' => ((Msg (Lit "Product deleted successfully"), 200), s')
        | Raise e => ((Msg (fstr "Error deleting product: " e), 500), s)
        end
    end) s.

(** The token-protected product operations. *)
Inductive product_request : Type :=
| AddProduct (data : gmap string json)
| UpdateProduct (id : Z) (data : gmap string json)
| UpdateQuantity (id : Z) (data : gmap string json)
| GetProducts (search : string)
| GetProduct (id : Z)
| DeleteProduct (id : Z).

Definition handle `{Sql} (b : bearer) (r : product_request) (s : Store)
  : response * Store :=
  match r with
  | AddProduct data => add_product b data s
  | UpdateProduct id data => update_product b id data s
  | UpdateQuantity id data => update_product_quantity b id data s
  | GetProducts search => get_products b search s
  | GetProduct id => get_product b id s
  | DeleteProduct id => delete_product b id s
  end.

End App.

(* ===================================================================== *)
(** * Constraints of the schema, and sample data                         *)
(* ===================================================================== *)

Module Schema.
Import Py Models.

(** The [nullable=False] columns of a product row hold a value. *)
Definition row_ok (p : Product) : Prop :=
  is_null (Product_name p) = false ∧ is_null (Product_sku p) = false
  ∧ is_null (Product_quantity p) = false ∧ is_null (Product_price p) = false.

(** The constraints [models.py] declares on [products]: the primary key
    identifies a row, the required columns are filled, and no two rows
    share a [sku]. *)
Definition store_ok (s : Store) : Prop :=
  Forall row_ok (products s)
  ∧ NoDup (map Product_id (products s))
  ∧ ∀ p q, p ∈ products s → q ∈ products s →
           sql_eq (Product_sku p) (Product_sku q) = true →
           Product_id p = Product_id q.

(** Some product carries this [sku], active or not. *)
Definition sku_taken (sku : json) (s : Store) : bool :=
  existsb (fun r => sql_eq (Product_sku r) sku) (products s).


(** A number below zero. *)
Definition negative_number (v : json) : bool :=
  match v with
  | JInt z => z <? 0
  | JFloat f => SFltb f float_zero
  | _ => false
  end.

(** The value stored under a key of a serialized object. *)
Fixpoint assoc (k : string) (l : list (string * json)) : option json :=
  match l with
  | [] => None
  | (k', v) :: l' => if String.eqb k k' then Some v else assoc k l'
  end.

Definition field (k : string) (d : json) : option json :=
  match d with
  | JObj l => assoc k l
  | _ => None
  end.


(** The message [create_product] gives for a duplicate SKU. *)
Definition duplicate_sku_message (sku : json) : text :=
  fval "Product with SKU " sku " already exists".

End Schema.

Module Examples.
Import Py Models Jwt.

(** A password hash for running the examples. *)
Definition toy_werkzeug : Werkzeug :=
  {| generate_password_hash := fun p => "h$" +:+ p;
     check_password_hash := fun h p => String.eqb h ("h$" +:+ p) |}.

(** Plain substring search for running the examples. *)
Fixpoint prefix_of (a b : string) : bool :=
  match a, b with
  | EmptyString, _ => true
  | String x a', String y b' => Ascii.eqb x y && prefix_of a' b'
  | _, _ => false
  end.

Fixpoint substring_of (a b : string) : bool :=
  prefix_of a b
  || match b with
     | String _ b' => substring_of a b'
     | EmptyString => false
     end.

Definition toy_sql : Sql :=
  {| sql_contains := fun v term =>
       match v with
       | JStr s => substring_of term s
       | _ => false
       end |}.

Definition empty_store : Store := {| users := []; products := [] |}.

Definition price_9_99 : json := JFloat (S754_finite false 5623870034678907 (-49)).

(** [{"name": "Widget", "sku": "SKU-100", "quantity": 5, "price": 9.99}]. *)
Definition widget : gmap string json :=
  <["name" := JStr "Widget"]>
    (<["sku" := JStr "SKU-100"]>
       (<["quantity" := JInt 5]> (<["price" := price_9_99]> ∅))).

Definition widget_row (active : bool) : Product :=
  {| Product_id := 1; Product_name := JStr "Widget"; Product_type := JNull;
     Product_sku := JStr "SKU-100"; Product_image_url := JNull;
     Product_description := JNull; Product_quantity := JInt 5;
     Product_price := price_9_99; Product_is_active := active;
     Product_created_by := Some 1 |}.

(** A store with the widget, active or soft-deleted. *)
Definition widget_store (active : bool) : Store :=
  {| users := []; products := [widget_row active] |}.

Definition bob : User :=
  {| User_id := 1; User_username := JStr "bob";
     User_password_hash := "h$hunter22"; User_email := JStr "bob@example.org";
     User_is_active := true |}.

Definition bob_store : Store := {| users := [bob]; products := [] |}.

Definition bob_deactivated : User :=
  {| User_id := 1; User_username := JStr "bob";
     User_password_hash := "h$hunter22"; User_email := JStr "bob@example.org";
     User_is_active := false |}.

Definition deactivated_store : Store :=
  {| users := [bob_deactivated]; products := [widget_row true] |}.

Definition token_1 : token := create_access_token (str_of_int 1).

End Examples.

(* ===================================================================== *)
(** * More built-ins: [in], [len] and [==] on values                     *)
(* ===================================================================== *)

Module PyMore.
Import Py.

(** [needle in hay] on strings. *)
Definition str_in (needle hay : string) : bool :=
  Examples.substring_of needle hay.

(** [len(v)]: numbers, booleans and [None] have no length. *)
Definition len_json (v : json) : result Z :=
  match v with
  | JStr s => Ok (len s)
  | JArr l => Ok (Z.of_nat (length l))
  | JObj l => Ok (Z.of_nat (length l))
  | JNull | JBool _ | JInt _ | JFloat _ => raise TypeError
  end.

Definition is_str (needle : string) (v : json) : bool :=
  match v with
  | JStr s => String.eqb s needle
  | _ => false
  end.

(** [needle in v] for a string [needle]: a substring of a string, an
    element of a list, a key of an object. *)
Definition in_json (needle : string) (v : json) : result bool :=
  match v with
  | JStr s => Ok (str_in needle s)
  | JArr l => Ok (existsb (is_str needle) l)
  | JObj l => Ok (existsb (fun kv => String.eqb kv.1 needle) l)
  | JNull | JBool _ | JInt _ | JFloat _ => raise TypeError
  end.

Definition Z_of_bool (b : bool) : Z := if b then 1 else 0.

(** A float equal to an integer: the comparison is exact. *)
Definition float_eq_Z (f : float) (z : Z) : bool :=
  match f with
  | S754_zero _ => z =? 0
  | S754_finite s m e =>
      let sgn := if s then (-1) else 1 in
      if 0 <=? e then z =? sgn * (Z.pos m * 2 ^ e)
      else (Z.pos m mod 2 ^ (- e) =? 0) && (z =? sgn * (Z.pos m / 2 ^ (- e)))
  | S754_infinity _ | S754_nan => false
  end.

(** [a == b]: numbers compare by value across [bool], [int] and [float],
    lists element by element, objects key by key. *)
Fixpoint eq (a b : json) {struct a} : bool :=
  match a, b with
  | JNull, JNull => true
  | JBool x, JBool y => Bool.eqb x y
  | JBool x, JInt y => Z_of_bool x =? y
  | JInt x, JBool y => x =? Z_of_bool y
  | JInt x, JInt y => x =? y
  | JBool x, JFloat f => float_eq_Z f (Z_of_bool x)
  | JFloat f, JBool y => float_eq_Z f (Z_of_bool y)
  | JInt x, JFloat f => float_eq_Z f x
  | JFloat f, JInt y => float_eq_Z f y
  | JFloat f, JFloat g => SFeqb f g
  | JStr s, JStr t => String.eqb s t
  | JArr l, JArr l' =>
      (fix all2 (l : list json) (l' : list json) {struct l} : bool :=
         match l, l' with
         | [], [] => true
         | x :: l, y :: l' => eq x y && all2 l l'
         | _, _ => false
         end) l l'
  | JObj l, JObj l' =>
      (length l =? length l')%nat
      && (fix all (l : list (string * json)) {struct l} : bool :=
            match l with
            | [] => true
            | (k, v) :: l =>
                match Schema.assoc k l' with
                | Some v' => eq v v'
                | None => false
                end && all l
            end) l
  | _, _ => false
  end.

End PyMore.

(* ===================================================================== *)
(** * services/auth_service.py: validation of the registration data      *)
(* ===================================================================== *)

Module AuthValidation.
Import Py PyMore.

(** [AuthService.validate_user_data]. *)
Definition validate_user_data (data : gmap string json)
  : result (bool * list string) :=
  if is_empty data then Ok (false, ["No data provided"])
  else
    let errors : list string := [] in
    errors ←
      (if negb (truthy (get data "username"))
       then Ok (errors ++ ["Username is required"])%list
       else
         n ← len_json (get data "username");
         Ok (if n <? 3
             then (errors ++ ["Username must be at least 3 characters long"])%list
             else errors));
    errors ←
      (if negb (truthy (get data "password"))
       then Ok (errors ++ ["Password is required"])%list
       else
         n ← len_json (get data "password");
         Ok (if n <? 6
             then (errors ++ ["Password must be at least 6 characters long"])%list
             else errors));
    let email := get data "email" in
    errors ←
      (if truthy email
       then
         has_at ← in_json "@" email;
         Ok (if negb has_at then (errors ++ ["Invalid email format"])%list
             else errors)
       else Ok errors);
    Ok (bool_decide (errors = []), errors).

End AuthValidation.

(* ===================================================================== *)
(** * app.py: [PUT /profile]                                             *)
(* ===================================================================== *)

Module Profile.
Import Py PyMore Models Jwt.

(** The document of a response of the profile view. *)
Inductive body : Type :=
| Msg (t : text)                  (* [{"msg": t}] *)
| ProfileUpdated (user : json).
    (* [{"msg": "Profile updated successfully", "user": user}] *)

Definition response : Type := body * Z.

Definition replace_user (i : Z) (u : User) (r : User) : User :=
  if User_id r =? i then u else r.

(** [save] of a loaded user: UPDATE of the row with its primary key, under
    the [unique=True] of [username] and [email] and the [nullable=False] of
    [username]. *)
Definition User_save (u : User) (s : Store) : result Store :=
  if is_null (User_username u) then raise IntegrityError
  else if existsb (fun r => negb (User_id r =? User_id u)
                            && (sql_eq (User_username r) (User_username u)
                                || sql_eq (User_email r) (User_email u)))
                  (users s)
  then raise IntegrityError
  else Ok (set_users (map (replace_user (User_id u) u) (users s)) s).

Definition with_email (email : json) (u : User) : User :=
  {| User_id := User_id u; User_username := User_username u;
     User_password_hash := User_password_hash u; User_email := email;
     User_is_active := User_is_active u |}.

Definition with_password_hash (h : string) (u : User) : User :=
  {| User_id := User_id u; User_username := User_username u;
     User_password_hash := h; User_email := User_email u;
     User_is_active := User_is_active u |}.

(** The email step of [update_user_profile]: [None] is the early return
    with 409. *)
Definition assign_email (data : gmap string json) (user : User) (s : Store)
  : option User :=
  match data !! "email" with
  | Some new_email =>
      if truthy new_email && negb (eq new_email (User_email user)) then
        match User_find_by_email new_email s with
        | Some existing_user =>
            if negb (User_id existing_user =? User_id user) then None
            else Some (with_email new_email user)
        | None => Some (with_email new_email user)
        end
      else Some user
  | None => Some user
  end.

Section WithWerkzeug.
Context `{Werkzeug}.

(** The password step of [update_user_profile]. *)
Definition assign_password (data : gmap string json) (user : User)
  : result User :=
  if contains data "password" && truthy (get data "password") then
    h ← set_password (get data "password");
    Ok (with_password_hash h user)
  else Ok user.

(** [PUT /profile]. *)
Definition update_user_profile (b : bearer) (data : gmap string json)
    (s : Store) : response * Store :=
  match b with
  | Missing => ((Msg (Lit "Authorization token is required"), 401), s)
  | Invalid => ((Msg (Lit "Invalid token"), 401), s)
  | Expired _ => ((Msg (Lit "Token has expired"), 401), s)
  | Valid t =>
      match int_of_str (sub t) with
      | None => ((Msg (Lit "Internal server error"), 500), s)
      | Some n =>
          match User_find_by_id n s with
          | None => ((Msg (Lit "User not found"), 404), s)
          | Some user =>
              if is_empty data then ((Msg (Lit "No data provided"), 400), s)
              else
                match assign_email data user s with
                | None => ((Msg (Lit "Email already registered"), 409), s)
                | Some user =>
                    let saved : result (User * Store) :=
                      user ← assign_password data user;
                      s' ← User_save user s;
                      Ok (user, s') in
                    match saved with
                    | Ok (user, s') =>
                        ((ProfileUpdated (App.user_to_dict user s'), 200), s')
                    | Raise e =>
                        ((Msg (fstr "Error updating profile: " e), 500), s)
                    end
                end
          end
      end
  end.

End WithWerkzeug.

End Profile.

(* ===================================================================== *)
(** * routes/api_routes.py                                               *)
(* ===================================================================== *)

Module Api.
Import Py PyMore Models Jwt.

(** The text [str(e)] of an exception raised by the run time or the store
    and the text of a value inside an f-string are not fixed by the source:
    the views are modelled for any such texts. *)
Class Texts : Type := {
  exn_str : exn -> string;
  value_str : json -> string
}.

(** The string a message stands for. *)
Definition render `{Texts} (t : text) : string :=
  match t with
  | Lit s => s
  | Fstr prefix e => prefix +:+ exn_str e
  | Fval prefix v suffix => prefix +:+ value_str v +:+ suffix
  end.

(** The document of a response. *)
Inductive body : Type :=
| Msg (t : text)                             (* [{"msg": t}] *)
| AccessToken (t : option token)             (* [{"access_token": t}] *)
| Created (message : text) (product_id : Z)  (* [{"message": ..., "product_id": ...}] *)
| Data (v : json).                           (* a serialized object or list *)

Definition response : Type := body * Z.

Section Views.
Context `{Werkzeug} `{Sql} `{Texts}.

(** [POST /register]. *)
Definition register (data : gmap string json) (s : Store) : response * Store :=
  match AuthValidation.validate_user_data data with
  | Raise e => ((Msg (fstr "Registration failed: " e), 500), s)
  | Ok (is_valid, errors) =>
      if negb is_valid then ((Msg (Lit (join "; " errors)), 400), s)
      else
        match getitem data "username", getitem data "password" with
        | Ok username, Ok password =>
            let '((success, message, user), s') :=
              AuthService.register_user username password (get data "email") s in
            if success : bool then ((Msg message, 201), s')
            else
              let status_code :=
                if str_in "already exists" (render message) then 409 else 400 in
              ((Msg message, status_code), s')
        | Raise e, _ | _, Raise e =>
            ((Msg (fstr "Registration failed: " e), 500), s)
        end
  end.

(** [POST /login]. *)
Definition login (data : gmap string json) (s : Store) : response :=
  if is_empty data || negb (truthy (get data "username"))
     || negb (truthy (get data "password"))
  then (Msg (Lit "Missing username or password"), 400)
  else
    let '(success, message, token, user) :=
      AuthService.authenticate_user (get data "username")
        (get data "password") s in
    if success : bool then (AccessToken token, 200)
    else (Msg message, 401).

(** [POST /products], for the identity of the verified token. *)
Definition add_product (identity : string) (data : gmap string json)
    (s : Store) : response * Store :=
  match int_of_str identity with
  | None =>
      ((Msg (fstr "Product creation failed: " (Exn ValueError None)), 500), s)
  | Some current_user_id =>
      let '((success, message, product), s') :=
        ProductService.create_product data (Some current_user_id) s in
      if success : bool then
        match product with
        | Some product => ((Created message (Product_id product), 201), s')
        | None =>
            ((Msg (fstr "Product creation failed: " (Exn AttributeError None)),
              500), s')
        end
      else
        let status_code :=
          if str_in "already exists" (render message) then 409 else 400 in
        ((Msg message, status_code), s')
  end.

(** [PUT /products/<product_id>/quantity]. *)
Definition update_product_quantity (product_id : Z)
    (data : gmap string json) (s : Store) : response * Store :=
  if negb (contains data "quantity")
  then ((Msg (Lit "Quantity is required"), 400), s)
  else
    let '((success, message, product), s') :=
      ProductService.update_product_quantity product_id
        (get data "quantity") s in
    if success : bool then
      match product with
      | Some product =>
          match Product_to_dict product with
          | Ok d => ((Data d, 200), s')
          | Raise e => ((Msg (fstr "Quantity update failed: " e), 500), s')
          end
      | None =>
          ((Msg (fstr "Quantity update failed: " (Exn AttributeError None)),
            500), s')
      end
    else
      let status_code :=
        if str_in "not found" (render message) then 404 else 400 in
      ((Msg message, status_code), s').

(** [GET /products]. *)
Definition get_products (search : option string) (s : Store) : response :=
  let '(products, total) := ProductService.get_all_products search s in
  match App.products_list products with
  | Ok l => (Data (JArr l), 200)
  | Raise e => (Msg (fstr "Failed to retrieve products: " e), 500)
  end.

End Views.

End Api.

(* ===================================================================== *)
(** * config.py                                                          *)
(* ===================================================================== *)

Module Config.

(** [JWT_ACCESS_TOKEN_EXPIRES]: [False] or a number of seconds. *)
Inductive expires : Type :=
| Never
| After (seconds : Z).

(** The attributes of a configuration class, the inherited ones included;
    [None] where the class has no such attribute. *)
Record config : Type := mkConfig {
  DEBUG : option bool;
  TESTING : option bool;
  SECRET_KEY : string;
  SQLALCHEMY_DATABASE_URI : option string;
  SQLALCHEMY_TRACK_MODIFICATIONS : bool;
  JWT_SECRET_KEY : string;
  JWT_ALGORITHM : string;
  JWT_DECODE_LEEWAY : Z;
  JWT_ACCESS_TOKEN_EXPIRES : expires
}.

Section Classes.
(** [os.environ] when the module is imported, after [load_dotenv()]. *)
Variable environ : gmap string string.

(** [class Config]. *)
Definition Config : config :=
  {| DEBUG := None; TESTING := None;
     SECRET_KEY := default "dev-flask-secret-key-fallback" (environ !! "SECRET_KEY");
     SQLALCHEMY_DATABASE_URI := None;
     SQLALCHEMY_TRACK_MODIFICATIONS := false;
     JWT_SECRET_KEY :=
       default "dev-jwt-secret-key-fallback" (environ !! "JWT_SECRET_KEY");
     JWT_ALGORITHM := "HS256";
     JWT_DECODE_LEEWAY := 10;
     JWT_ACCESS_TOKEN_EXPIRES := Never |}.

(** [class DevelopmentConfig(Config)]. *)
Definition DevelopmentConfig : config :=
  {| DEBUG := Some true; TESTING := TESTING Config;
     SECRET_KEY := SECRET_KEY Config;
     SQLALCHEMY_DATABASE_URI := Some "sqlite:///inventory_dev.db";
     SQLALCHEMY_TRACK_MODIFICATIONS := SQLALCHEMY_TRACK_MODIFICATIONS Config;
     JWT_SECRET_KEY := JWT_SECRET_KEY Config;
     JWT_ALGORITHM := JWT_ALGORITHM Config;
     JWT_DECODE_LEEWAY := JWT_DECODE_LEEWAY Config;
     JWT_ACCESS_TOKEN_EXPIRES := JWT_ACCESS_TOKEN_EXPIRES Config |}.

(** [class ProductionConfig(Config)]. *)
Definition ProductionConfig : config :=
  {| DEBUG := Some false; TESTING := TESTING Config;
     SECRET_KEY := SECRET_KEY Config;
     SQLALCHEMY_DATABASE_URI :=
       Some (default "sqlite:///inventory_prod.db" (environ !! "DATABASE_URL"));
     SQLALCHEMY_TRACK_MODIFICATIONS := SQLALCHEMY_TRACK_MODIFICATIONS Config;
     JWT_SECRET_KEY := JWT_SECRET_KEY Config;
     JWT_ALGORITHM := JWT_ALGORITHM Config;
     JWT_DECODE_LEEWAY := JWT_DECODE_LEEWAY Config;
     JWT_ACCESS_TOKEN_EXPIRES := After 3600 |}.

(** [class TestingConfig(Config)]. *)
Definition TestingConfig : config :=
  {| DEBUG := DEBUG Config; TESTING := Some true;
     SECRET_KEY := SECRET_KEY Config;
     SQLALCHEMY_DATABASE_URI := Some "sqlite:///:memory:";
     SQLALCHEMY_TRACK_MODIFICATIONS := SQLALCHEMY_TRACK_MODIFICATIONS Config;
     JWT_SECRET_KEY := JWT_SECRET_KEY Config;
     JWT_ALGORITHM := JWT_ALGORITHM Config;
     JWT_DECODE_LEEWAY := JWT_DECODE_LEEWAY Config;
     JWT_ACCESS_TOKEN_EXPIRES := JWT_ACCESS_TOKEN_EXPIRES Config |}.

(** [config_mapping]. *)
Definition config_mapping : gmap string config :=
  <["development" := DevelopmentConfig]>
    (<["production" := ProductionConfig]>
       (<["testing" := TestingConfig]>
          (<["default" := DevelopmentConfig]> ∅))).

(** [get_config]; [environ_now] is [os.environ] at the call. *)
Definition get_config (environ_now : gmap string string)
    (environment : option string) : config :=
  let environment :=
    match environment with
    | Some e => e
    | None => default "default" (environ_now !! "FLASK_ENV")
    end in
  default DevelopmentConfig (config_mapping !! environment).

End Classes.

End Config.

(* ===================================================================== *)
(** * What the views keep, and more sample data                          *)
(* ===================================================================== *)

Module Invariants.
Import Py Models.

(** The columns of a product no view assigns after the insert. *)
Definition row_key (p : Product) : Z * json * option Z :=
  (Product_id p, Product_sku p, Product_created_by p).

(** The constraints [models.py] declares on [users]: the primary key
    identifies a row and no two rows share a [username] or an [email]. *)
Definition users_ok (s : Store) : Prop :=
  NoDup (map User_id (users s))
  ∧ ∀ u v, u ∈ users s → v ∈ users s →
           sql_eq (User_username u) (User_username v) = true
           ∨ sql_eq (User_email u) (User_email v) = true →
           User_id u = User_id v.

End Invariants.

Module MoreExamples.
Import Py Models Jwt Examples.

Definition gadget_row : Product :=
  {| Product_id := 2; Product_name := JStr "Gadget"; Product_type := JNull;
     Product_sku := JStr "SKU-200"; Product_image_url := JNull;
     Product_description := JNull; Product_quantity := JInt 0;
     Product_price := JInt 3; Product_is_active := false;
     Product_created_by := Some 1 |}.

(** Bob, the active widget and the soft-deleted gadget. *)
Definition two_store : Store :=
  {| users := [bob]; products := [widget_row true; gadget_row] |}.

Definition alice : User :=
  {| User_id := 2; User_username := JStr "alice";
     User_password_hash := "h$secret1"; User_email := JStr "alice@example.org";
     User_is_active := true |}.

Definition two_users : Store :=
  {| users := [bob; alice]; products := [widget_row true] |}.

(** [{"username": u, "password": p}]. *)
Definition credentials (u p : string) : gmap string json :=
  <["username" := JStr u]> (<["password" := JStr p]> ∅).

Definition toy_texts : Api.Texts :=
  {| Api.exn_str := fun _ => "error"; Api.value_str := fun _ => "value" |}.

End MoreExamples.

(** Membership in a list written out. *)
Ltac in_list :=
  repeat match goal with
         | H : _ ∈ (_ :: _) |- _ => apply elem_of_cons in H as [->|H]
         | H : _ ∈ [] |- _ => by apply elem_of_nil in H
         end;
  repeat first [apply list_elem_of_here | apply list_elem_of_further].


(* ===================================================================== *)
(** * Properties of the built-ins                                        *)
(* ===================================================================== *)

Section PyFacts.
Import Py.

Lemma strip_empty : strip "" = "".
Proof. reflexivity. Qed.

(** A string whose stripped form has a character is itself not empty, so
    it is truthy. *)
Lemma truthy_of_strip (s : string) (n : Z) :
  0 < n → n <= len (strip s) → truthy (JStr s) = true.
Proof.
  intros Hn Hlen. destruct s as [|c s]; [|reflexivity].
  rewrite strip_empty in Hlen. unfold len in Hlen. simpl in Hlen. lia.
Qed.

Lemma contains_true (d : gmap string json) (k : string) (v : json) :
  d !! k = Some v → contains d k = true.
Proof.
  intros Hk. unfold contains. apply bool_decide_eq_true_2. by exists v.
Qed.

Lemma contains_false (d : gmap string json) (k : string) :
  d !! k = None → contains d k = false.
Proof.
  intros Hk. unfold contains. apply bool_decide_eq_false_2.
  rewrite Hk. by intros [? ?].
Qed.

Lemma is_empty_false (d : gmap string json) (k : string) (v : json) :
  d !! k = Some v → is_empty d = false.
Proof.
  intros Hk. unfold is_empty. apply bool_decide_eq_false_2.
  intros ->. by rewrite lookup_empty in Hk.
Qed.

Lemma getitem_Some (d : gmap string json) (k : string) (v : json) :
  d !! k = Some v → getitem d k = Ok v.
Proof. intros Hk. unfold getitem. by rewrite Hk. Qed.

Lemma get_Some (d : gmap string json) (k : string) (v : json) :
  d !! k = Some v → get d k = v.
Proof. intros Hk. unfold get. by rewrite Hk. Qed.

(** A comparison with [0] that answers tells a number from the rest. *)
Lemma lt0_true_negative (v : json) :
  lt0 v = Ok true ↔ Schema.negative_number v = true.
Proof.
  destruct v; simpl; unfold raise, float_lt0; split; intros Hv;
    try discriminate; try (injection Hv as ->); try congruence.
Qed.

End PyFacts.

(* ===================================================================== *)
(** * The tables                                                         *)
(* ===================================================================== *)

Section TableFacts.
Import Py Models Schema.

Lemma sql_eq_str_refl (s : string) : sql_eq (JStr s) (JStr s) = true.
Proof. simpl. apply String.eqb_refl. Qed.

Lemma find_app_None {A} (f : A → bool) (l : list A) (x : A) :
  find f l = None → find f (l ++ [x]) = if f x then Some x else None.
Proof.
  induction l as [|a l IH]; simpl; [done|].
  destruct (f a); [done|]. exact IH.
Qed.


Lemma find_Some_existsb {A} (f : A → bool) (l : list A) (x : A) :
  find f l = Some x → existsb f l = true.
Proof.
  intros Hx. apply existsb_exists. exists x.
  destruct (find_some _ _ Hx). auto.
Qed.

(** An active product with the [sku] is in particular a product with it. *)
Lemma find_by_sku_taken (sku : json) (s : Store) (p : Product) :
  find_by_sku sku s = Some p → sku_taken sku s = true.
Proof.
  unfold find_by_sku, sku_taken. intros Hp.
  destruct (find_some _ _ Hp) as [Hin [Heq _]%andb_prop].
  apply existsb_exists. eauto.
Qed.


(** The insert of a product whose [sku] is taken is refused. *)
Lemma Product_save_new_taken (p : NewProduct) (s : Store) :
  sku_taken (np_sku p) s = true →
  ∃ e, Product_save_new p s = Raise e.
Proof.
  unfold sku_taken, Product_save_new. intros ->.
  destruct (_ || _); eexists; reflexivity.
Qed.

End TableFacts.

(* ===================================================================== *)
(** * services/product_service.py: validation and creation               *)
(* ===================================================================== *)

Section CreateFacts.
Import Py Models Schema ProductService.

(** Validation accepts a body whose four required fields are well formed. *)
Lemma validate_product_data_ok (data : gmap string json)
    (name sku : string) (q p : json) (n : Z) (f : float) :
  data !! "name" = Some (JStr name) → 2 <= len (strip name) →
  data !! "sku" = Some (JStr sku) → 3 <= len (strip sku) →
  data !! "quantity" = Some q → int q = Ok n → 0 <= n →
  data !! "price" = Some p → to_float p = Ok f → float_lt0 f = false →
  validate_product_data data = Ok (true, []).
Proof.
  intros Hname Hn Hsku Hs Hq Hint Hn0 Hp Hfl Hf0.
  unfold validate_product_data.
  rewrite (is_empty_false _ _ _ Hname).
  unfold required_fields. cbn [foldl].
  rewrite (contains_true _ _ _ Hname), (contains_true _ _ _ Hsku),
    (contains_true _ _ _ Hq), (contains_true _ _ _ Hp).
  rewrite Hname, Hsku, Hq, Hp.
  rewrite (truthy_of_strip name 2), (truthy_of_strip sku 3) by lia.
  cbn [negb str_strip mbind result_bind].
  assert ((len (strip name) <? 2) = false) as -> by lia.
  assert ((len (strip sku) <? 3) = false) as -> by lia.
  rewrite Hint, Hfl. assert ((n <? 0) = false) as -> by lia.
  rewrite Hf0. reflexivity.
Qed.


(** A failed [create_product] leaves the store as it was. *)
Lemma create_product_failed_store (data : gmap string json)
    (created_by : option Z) (s : Store) :
  (create_product data created_by s).1.1.1 = false →
  (create_product data created_by s).2 = s.
Proof.
  unfold create_product.
  destruct (validate_product_data data) as [[is_valid errors]|e];
    cbn [mbind result_bind]; [|done].
  destruct is_valid; cbn [negb]; [|done].
  destruct (getitem data "sku") as [sku|e]; cbn [mbind result_bind]; [|done].
  destruct (find_by_sku sku s); [done|].
  destruct (getitem data "name") as [name|e]; cbn [mbind result_bind]; [|done].
  destruct (getitem data "quantity") as [q|e]; cbn [mbind result_bind]; [|done].
  destruct (getitem data "price") as [p|e]; cbn [mbind result_bind]; [|done].
  destruct (Product_save_new _ s) as [[row s']|e]; cbn [mbind result_bind];
    [|done].
  discriminate.
Qed.

(** No [create_product] with a taken [sku] succeeds. *)
Lemma create_product_taken (data : gmap string json) (created_by : option Z)
    (s : Store) (sku : json) :
  data !! "sku" = Some sku → sku_taken sku s = true →
  (create_product data created_by s).1.1.1 = false.
Proof.
  intros Hsku Htaken. unfold create_product.
  destruct (validate_product_data data) as [[is_valid errors]|e];
    cbn [mbind result_bind]; [|done].
  destruct is_valid; cbn [negb]; [|done].
  rewrite (getitem_Some _ _ _ Hsku). cbn [mbind result_bind].
  destruct (find_by_sku sku s); [done|].
  destruct (getitem data "name") as [name|e]; cbn [mbind result_bind]; [|done].
  destruct (getitem data "quantity") as [q|e]; cbn [mbind result_bind]; [|done].
  destruct (getitem data "price") as [p|e]; cbn [mbind result_bind]; [|done].
  match goal with |- context [Product_save_new ?np s] =>
    destruct (Product_save_new_taken np s Htaken) as [e ->] end.
  done.
Qed.

(** A validated body with the [sku] of an active product gets the
    duplicate-SKU message. *)
Lemma create_product_duplicate_active (data : gmap string json)
    (created_by : option Z) (s : Store) (sku : json) (p : Product) :
  validate_product_data data = Ok (true, []) →
  data !! "sku" = Some sku → find_by_sku sku s = Some p →
  create_product data created_by s
  = ((false, duplicate_sku_message sku, None), s).
Proof.
  intros Hv Hsku Hp. unfold create_product, duplicate_sku_message. rewrite Hv.
  cbn [mbind result_bind negb]. rewrite (getitem_Some _ _ _ Hsku).
  cbn [mbind result_bind]. by rewrite Hp.
Qed.

End CreateFacts.

Section CreateProperties.
Import Py Models Schema ProductService Examples.





(** C1 (as amended).  A create call whose sku is the sku of an existing
    product, active or inactive, never succeeds and inserts nothing; when
    the call passes validation and the product carrying the sku is active,
    it fails with the duplicate-SKU message. *)
Theorem create_product_rejects_taken_sku (data : gmap string json)
    (created_by : option Z) (s : Store) (sku : json) :
  data !! "sku" = Some sku → sku_taken sku s = true →
  (create_product data created_by s).1.1.1 = false
  ∧ (create_product data created_by s).2 = s
  ∧ (validate_product_data data = Ok (true, []) →
     ∀ p, find_by_sku sku s = Some p →
          create_product data created_by s
          = ((false, duplicate_sku_message sku, None), s)).
Proof.
  intros Hsku Htaken.
  pose proof (create_product_taken data created_by s sku Hsku Htaken) as Hno.
  split; [exact Hno|]. split.
  - by apply create_product_failed_store.
  - intros Hv p Hp. by eapply create_product_duplicate_active.
Qed.

Lemma create_product_rejects_taken_sku_witness :
  (create_product widget None (widget_store true)).1.1.1 = false
  ∧ (create_product widget None (widget_store true)).2 = widget_store true
  ∧ (validate_product_data widget = Ok (true, []) →
     ∀ p, find_by_sku (JStr "SKU-100") (widget_store true) = Some p →
          create_product widget None (widget_store true)
          = ((false, duplicate_sku_message (JStr "SKU-100"), None),
             widget_store true)).
Proof.
  apply (create_product_rejects_taken_sku widget None (widget_store true)
           (JStr "SKU-100")); vm_compute; reflexivity.
Defined.

(** C1 as stated fails: with the sku of an active product a call that does
    not pass validation gets the validation message, and with the sku of a
    soft-deleted product a valid call gets the message of a failed insert;
    neither is the duplicate-SKU message. *)
Lemma create_product_taken_sku_other_error :
  sku_taken (JStr "SKU-100") (widget_store true) = true
  ∧ create_product (<["quantity" := JInt (-5)]> widget) None (widget_store true)
    = ((false, Lit "Quantity cannot be negative", None), widget_store true)
  ∧ Lit "Quantity cannot be negative" ≠ duplicate_sku_message (JStr "SKU-100")
  ∧ sku_taken (JStr "SKU-100") (widget_store false) = true
  ∧ create_product widget None (widget_store false)
    = ((false, Fstr "Product creation failed: " (Exn IntegrityError None), None),
       widget_store false).
Proof. vm_compute. repeat split; discriminate. Qed.






End CreateProperties.

(* ===================================================================== *)
(** * Updating a quantity                                                *)
(* ===================================================================== *)

Section QuantityProperties.
Import Py Models Schema Jwt Examples.

Lemma Product_get_Some (id : Z) (s : Store) (p : Product) :
  Product_get id s = Some p → p ∈ products s ∧ Product_id p = id.
Proof.
  unfold Product_get. intros Hp. destruct (find_some _ _ Hp) as [Hin Hid].
  split; [by apply list_elem_of_In|lia].
Qed.

(** [Product.update_quantity] refuses a number below zero. *)
Lemma update_quantity_negative (p : Product) (q : json) (s : Store) :
  negative_number q = true →
  update_quantity p q s = Raise (Exn ValueError (Some "Quantity cannot be negative")).
Proof.
  intros Hq%lt0_true_negative. unfold update_quantity. by rewrite Hq.
Qed.

(** What [Product.update_quantity] stores is not below zero. *)
Lemma update_quantity_stored (p p' : Product) (q : json) (s s' : Store) :
  update_quantity p q s = Ok (p', s') →
  lt0 q = Ok false ∧ Product_quantity p' = q.
Proof.
  unfold update_quantity. destruct (lt0 q) as [[]|e];
    cbn [mbind result_bind]; try done.
  destruct (Product_save _ s); cbn [mbind result_bind]; [|done].
  by intros [= <- <-].
Qed.



Lemma service_update_invalid (id : Z) (q : json) (s : Store) (p : Product) :
  Product_get id s = Some p → Product_is_active p = true →
  isinstance_int q = false ∨ negative_number q = true →
  ProductService.update_product_quantity id q s
  = ((false, Lit "Quantity must be a non-negative integer", None), s).
Proof.
  intros Hp Hact Hq. unfold ProductService.update_product_quantity.
  rewrite Hp, Hact. cbn [negb].
  destruct Hq as [Hq|Hq].
  - by rewrite Hq.
  - apply lt0_true_negative in Hq. rewrite Hq. by destruct (isinstance_int q).
Qed.


(** C4.  For an existing active product and a requested quantity that is a
    number below zero, the model method raises, the service answers with its
    validation message and the route answers 400; the store, and so the
    stored quantity, is unchanged. *)
Theorem update_quantity_negative_rejected (id : Z) (q : json) (s : Store)
    (p : Product) (t : token) (data : gmap string json) :
  Product_get id s = Some p → Product_is_active p = true →
  negative_number q = true → data !! "quantity" = Some q →
  ProductService.update_product_quantity id q s
  = ((false, Lit "Quantity must be a non-negative integer", None), s)
  ∧ (∃ m, App.update_product_quantity (Valid t) id data s
          = ((App.Msg (Lit m), 400), s))
  ∧ update_quantity p q s
    = Raise (Exn ValueError (Some "Quantity cannot be negative")).
Proof.
  intros Hp Hact Hneg Hq.
  split; [eapply service_update_invalid; eauto|].
  split; [|by apply update_quantity_negative].
  unfold App.update_product_quantity, App.jwt_required. rewrite Hp.
  rewrite (contains_true _ _ _ Hq), (get_Some _ _ _ Hq). cbn [negb orb].
  destruct (isinstance_int q); cbn [negb]; [|eauto].
  rewrite (update_quantity_negative _ _ _ Hneg).
  unfold App.update_failed. cbn. eauto.
Qed.

Lemma update_quantity_negative_rejected_witness :
  ProductService.update_product_quantity 1 (JInt (-1)) (widget_store true)
  = ((false, Lit "Quantity must be a non-negative integer", None),
     widget_store true)
  ∧ (∃ m, App.update_product_quantity (Valid token_1) 1
            (<["quantity" := JInt (-1)]> ∅) (widget_store true)
          = ((App.Msg (Lit m), 400), widget_store true))
  ∧ update_quantity (widget_row true) (JInt (-1)) (widget_store true)
    = Raise (Exn ValueError (Some "Quantity cannot be negative")).
Proof.
  apply (update_quantity_negative_rejected 1 (JInt (-1)) (widget_store true)
           (widget_row true) token_1 (<["quantity" := JInt (-1)]> ∅));
    reflexivity.
Defined.

(** C6.  The route of [app.py] does not look at [is_active]: on the
    soft-deleted widget it sets the quantity to 7 and answers 200, where
    the service refuses with "Product is inactive". *)
Theorem update_quantity_route_updates_inactive :
  App.update_product_quantity (Valid token_1) 1 (<["quantity" := JInt 7]> ∅)
    (widget_store false)
  = ((App.Data
        (JObj [("id", JInt 1); ("name", JStr "Widget"); ("type", JNull);
               ("sku", JStr "SKU-100"); ("image_url", JNull);
               ("description", JNull); ("quantity", JInt 7);
               ("price", price_9_99); ("is_active", JBool false);
               ("in_stock", JBool true); ("created_by", JInt 1)]), 200),
     {| users := [];
        products := [with_quantity (JInt 7) (widget_row false)] |})
  ∧ ProductService.update_product_quantity 1 (JInt 7) (widget_store false)
    = ((false, Lit "Product is inactive", None), widget_store false).
Proof. split; reflexivity. Qed.

(** C2.  [POST /products] of [app.py] validates nothing: a quantity of -5
    is stored, where [ProductService.create_product] refuses the same body. *)
Theorem add_product_stores_negative_quantity :
  App.add_product (Valid token_1) (<["quantity" := JInt (-5)]> widget)
    empty_store
  = ((App.ProductAdded 1, 201),
     {| users := [];
        products := [with_quantity (JInt (-5)) (widget_row true)] |})
  ∧ ProductService.create_product (<["quantity" := JInt (-5)]> widget)
      (Some 1) empty_store
    = ((false, Lit "Quantity cannot be negative", None), empty_store).
Proof. split; vm_compute; reflexivity. Qed.

(** The service validates [int(quantity)], which truncates: a quantity of
    -0.5 passes and is stored as given. *)
Lemma create_product_stores_negative_fraction :
  let half := JFloat (S754_finite true 1 (-1)) in
  negative_number half = true
  ∧ ProductService.create_product (<["quantity" := half]> widget) (Some 1)
      empty_store
    = ((true, Lit "Product created successfully",
        Some (with_quantity half (widget_row true))),
       {| users := []; products := [with_quantity half (widget_row true)] |}).
Proof. split; vm_compute; reflexivity. Qed.

End QuantityProperties.

(* ===================================================================== *)
(** * Soft delete                                                        *)
(* ===================================================================== *)

Section DeleteProperties.
Import Py Models Schema Jwt Examples.

Lemma find_replace_row (i : Z) (p p' : Product) (l : list Product) :
  find (fun r => Product_id r =? i) l = Some p → Product_id p' = i →
  find (fun r => Product_id r =? i) (map (replace_row i p') l) = Some p'.
Proof.
  intros Hp Hid. induction l as [|a l IH]; simpl in *; [done|].
  unfold replace_row at 1 2. destruct (Product_id a =? i) eqn:Ha.
  - rewrite Hid, Z.eqb_refl. done.
  - rewrite Ha. auto.
Qed.

Lemma replace_row_twice (i : Z) (p' : Product) (l : list Product) :
  Product_id p' = i →
  map (replace_row i p') (map (replace_row i p') l) = map (replace_row i p') l.
Proof.
  intros Hid. rewrite map_map. apply map_ext. intros r.
  unfold replace_row. destruct (Product_id r =? i) eqn:Hr; [|by rewrite Hr].
  by rewrite Hid, Z.eqb_refl.
Qed.

(** Rows with another key are not touched, so the unique check sees the
    same rows after the update. *)
Lemma existsb_other_rows (i : Z) (p' : Product) (g : Product → bool)
    (l : list Product) :
  Product_id p' = i →
  existsb (fun r => negb (Product_id r =? i) && g r) (map (replace_row i p') l)
  = existsb (fun r => negb (Product_id r =? i) && g r) l.
Proof.
  intros Hid. induction l as [|a l IH]; simpl; [done|]. rewrite IH. f_equal.
  unfold replace_row. destruct (Product_id a =? i) eqn:Ha; [|by rewrite Ha].
  by rewrite Hid, Z.eqb_refl.
Qed.

Lemma Product_save_eq (p : Product) (s s' : Store) :
  Product_save p s = Ok s' →
  s' = set_products (map (replace_row (Product_id p) p) (products s)) s.
Proof.
  unfold Product_save. destruct (_ || _); [done|].
  destruct (existsb _ _); [done|]. by intros [= <-].
Qed.

(** Saving the same object once more changes nothing. *)
Lemma Product_save_again (p : Product) (s s' : Store) :
  Product_save p s = Ok s' → Product_save p s' = Ok s'.
Proof.
  intros Hs. pose proof (Product_save_eq _ _ _ Hs) as ->.
  unfold Product_save in *. destruct (_ || _); [done|].
  cbn [products set_products].
  rewrite (existsb_other_rows (Product_id p) p
             (fun r => sql_eq (Product_sku r) (Product_sku p))) by done.
  destruct (existsb _ _); [done|].
  unfold set_products. cbn [users products].
  by rewrite replace_row_twice.
Qed.

(** In a store that satisfies the constraints, a loaded product can be
    saved again when its key and sku are kept and its required columns
    are filled. *)
Lemma Product_save_ok (p p' : Product) (s : Store) :
  store_ok s → p ∈ products s →
  Product_id p' = Product_id p → Product_sku p' = Product_sku p → row_ok p' →
  Product_save p' s
  = Ok (set_products (map (replace_row (Product_id p') p') (products s)) s).
Proof.
  intros (Hrows & Hkeys & Hskus) Hin Hid Hsku (N1 & N2 & N3 & N4).
  unfold Product_save. rewrite N1, N2, N3, N4. cbn [orb].
  assert (existsb (fun r => negb (Product_id r =? Product_id p')
                            && sql_eq (Product_sku r) (Product_sku p'))
                  (products s) = false) as ->; [|done].
  apply not_true_is_false. intros (r & Hr & [Hne Heq]%andb_prop)%existsb_exists.
  apply list_elem_of_In in Hr. rewrite Hsku in Heq.
  pose proof (Hskus r p Hr Hin Heq) as Hsame.
  apply negb_true_iff, Z.eqb_neq in Hne. congruence.
Qed.

Lemma with_is_active_twice (b : bool) (p : Product) :
  with_is_active b (with_is_active b p) = with_is_active b p.
Proof. reflexivity. Qed.

(** A second soft delete answers as the first did and leaves the store
    as the first left it, whatever the token and the store. *)
Lemma delete_product_twice (b : bearer) (id : Z) (s : Store) :
  App.delete_product b id (App.delete_product b id s).2
  = App.delete_product b id s.
Proof.
  unfold App.delete_product, App.jwt_required.
  destruct b as [| |t|t]; try reflexivity.
  destruct (Product_get id s) as [p|] eqn:Hp; cbn [snd]; [|by rewrite Hp].
  destruct (Product_save (with_is_active false p) s) as [s'|e] eqn:Hs;
    cbn [snd]; [|by rewrite Hp, Hs].
  destruct (Product_get_Some _ _ _ Hp) as [_ Hid].
  assert (Product_get id s' = Some (with_is_active false p)) as ->.
  { rewrite (Product_save_eq _ _ _ Hs). unfold Product_get.
    cbn [products set_products Product_id with_is_active]. rewrite Hid.
    by apply (find_replace_row _ p). }
  rewrite with_is_active_twice. by rewrite (Product_save_again _ _ _ Hs).
Qed.

(** C8.  For an existing product, a second soft delete gives the answer
    of the first and leaves the store as the first left it.  In a store
    that satisfies the declared constraints the first one succeeds, after
    which the product is inactive and is still returned by its id. *)
Theorem delete_product_idempotent (t : token) (id : Z) (s : Store)
    (p : Product) :
  Product_get id s = Some p →
  let once := App.delete_product (Valid t) id s in
  let twice := App.delete_product (Valid t) id once.2 in
  twice = once
  ∧ (store_ok s →
     once.1 = (App.Msg (Lit "Product deleted successfully"), 200)
     ∧ Product_get id twice.2 = Some (with_is_active false p)
     ∧ Product_is_active (with_is_active false p) = false
     ∧ (App.get_product (Valid t) id twice.2).1 ≠ App.not_found
     ∧ ∀ d, App.product_to_dict (with_is_active false p) = Ok d →
            App.get_product (Valid t) id twice.2
            = ((App.Data d, 200), twice.2)
            ∧ field "is_active" d = Some (JBool false)).
Proof.
  intros Hp once twice.
  assert (twice = once) as Htw by apply delete_product_twice.
  split; [exact Htw|]. intros Hok.
  destruct (Product_get_Some _ _ _ Hp) as [Hin Hid].
  assert (Forall row_ok (products s)) as Hrows by apply Hok.
  assert (row_ok p) as Hrow by (by eapply Forall_forall in Hrows).
  assert (once = ((App.Msg (Lit "Product deleted successfully"), 200),
                  set_products
                    (map (replace_row id (with_is_active false p))
                       (products s)) s)) as Honce.
  { subst once. unfold App.delete_product, App.jwt_required. rewrite Hp.
    rewrite (Product_save_ok p (with_is_active false p) s Hok Hin)
      by done.
    cbn [Product_id with_is_active]. by rewrite Hid. }
  assert (Product_get id twice.2 = Some (with_is_active false p)) as Hget.
  { rewrite Htw, Honce. unfold Product_get. cbn [snd products set_products].
    by apply (find_replace_row _ p). }
  split; [by rewrite Honce|]. split; [exact Hget|].
  split; [reflexivity|].
  unfold App.get_product, App.jwt_required. rewrite Hget. split.
  - by destruct (App.product_to_dict _).
  - intros d Hd. rewrite Hd. split; [reflexivity|].
    unfold App.product_to_dict, Product_to_dict in Hd.
    destruct (is_in_stock _); cbn [mbind result_bind] in Hd; [|done].
    by injection Hd as <-.
Qed.

Lemma widget_store_ok : store_ok (widget_store true).
Proof.
  split; [|split].
  - repeat constructor.
  - repeat constructor. set_solver.
  - intros p q Hp Hq _. cbn in Hp, Hq.
    apply list_elem_of_singleton in Hp, Hq. congruence.
Qed.

Lemma delete_product_idempotent_witness :
  let once := App.delete_product (Valid token_1) 1 (widget_store true) in
  let twice := App.delete_product (Valid token_1) 1 once.2 in
  twice = once
  ∧ (store_ok (widget_store true) →
     once.1 = (App.Msg (Lit "Product deleted successfully"), 200)
     ∧ Product_get 1 twice.2 = Some (with_is_active false (widget_row true))
     ∧ Product_is_active (with_is_active false (widget_row true)) = false
     ∧ (App.get_product (Valid token_1) 1 twice.2).1 ≠ App.not_found
     ∧ ∀ d, App.product_to_dict (with_is_active false (widget_row true)) = Ok d →
            App.get_product (Valid token_1) 1 twice.2
            = ((App.Data d, 200), twice.2)
            ∧ field "is_active" d = Some (JBool false)).
Proof.
  apply (delete_product_idempotent token_1 1 (widget_store true)
           (widget_row true)).
  reflexivity.
Defined.

End DeleteProperties.

(* ===================================================================== *)
(** * The identity of a token: [int(str(id)) = id]                       *)
(* ===================================================================== *)

Section IdentityFacts.
Import Py.

Lemma digit_is_plain (c : ascii) :
  is_digit c = true → isspace_ascii c = false ∧ (code c <? 128)%N = true.
Proof. destruct c as [[] [] [] [] [] [] [] []]; vm_compute; intuition congruence. Qed.

Lemma lstrip_id (sp : ascii → bool) (s : string) :
  (∀ c, In c (list_ascii_of_string s) → sp c = false) → lstrip sp s = s.
Proof.
  destruct s as [|c s]; [done|]. intros Hs. simpl.
  by rewrite (Hs c) by (simpl; auto).
Qed.

Lemma rstrip_id (sp : ascii → bool) (s : string) :
  (∀ c, In c (list_ascii_of_string s) → sp c = false) → rstrip sp s = s.
Proof.
  induction s as [|c s IH]; [done|]. intros Hs. simpl.
  rewrite IH by (intros d Hd; apply Hs; simpl; auto).
  rewrite (Hs c) by (simpl; auto). by destruct s.
Qed.

Lemma is_ascii_string_true (s : string) :
  (∀ c, In c (list_ascii_of_string s) → (code c <? 128)%N = true) →
  is_ascii_string s = true.
Proof. intros Hs. unfold is_ascii_string. by apply forallb_forall. Qed.

(** A string of digits, possibly after a minus sign, has nothing to strip. *)
Lemma number_body_id (s : string) :
  (∀ c, In c (list_ascii_of_string s) →
        isspace_ascii c = false ∧ (code c <? 128)%N = true) →
  number_body s = s.
Proof.
  intros Hs. unfold number_body, spaces_to_ascii.
  rewrite is_ascii_string_true by (intros c Hc; by apply Hs).
  rewrite lstrip_id by (intros c Hc; by apply Hs).
  apply rstrip_id. intros c Hc. by apply Hs.
Qed.

Lemma string_of_uint_digits (d : Decimal.uint) (c : ascii) :
  In c (list_ascii_of_string (NilEmpty.string_of_uint d)) → is_digit c = true.
Proof.
  induction d; simpl; try tauto; intros [<-|Hc]; auto.
Qed.

Lemma digits_from_digit (c : ascii) (s : string) (acc n : Z) (b : bool) :
  is_digit c = true →
  digits_from (String c s) acc n b
  = digits_from s (10 * acc + digit_val c) (n + 1) true.
Proof. intros Hc. simpl. by rewrite Hc. Qed.

Lemma digits_from_acc (d : Decimal.uint) (acc : positive) (n : Z) :
  ∃ k, digits_from (NilEmpty.string_of_uint d) (Z.pos acc) n true
       = Some (Z.pos (Pos.of_uint_acc d acc), k).
Proof.
  revert acc n.
  induction d; intros acc n; cbn [NilEmpty.string_of_uint Pos.of_uint_acc];
    [by eexists|..];
    rewrite digits_from_digit by reflexivity;
    match goal with
    | |- context [Pos.of_uint_acc _ ?b] =>
        match goal with
        | |- context [digits_from _ ?a _ true] =>
            replace a with (Z.pos b) by (unfold digit_val; cbn; lia)
        end
    end; apply IHd.
Qed.

Lemma digits_from_lead (c : ascii) (s : string) (n : Z) (b : bool)
    (k : positive) :
  is_digit c = true → digit_val c = Z.pos k →
  digits_from (String c s) 0 n b = digits_from s (Z.pos k) (n + 1) true.
Proof. intros Hc Hk. rewrite digits_from_digit by done. by rewrite Hk. Qed.

Lemma digits_from_zero (d : Decimal.uint) (n : Z) (b : bool) :
  d ≠ Decimal.Nil ∨ b = true →
  ∃ k, digits_from (NilEmpty.string_of_uint d) 0 n b
       = Some (Z.of_N (Pos.of_uint d), k).
Proof.
  revert n b.
  induction d; intros n b Hd; cbn [NilEmpty.string_of_uint Pos.of_uint].
  - destruct Hd as [Hd| ->]; [done|]. by eexists.
  - rewrite digits_from_digit by reflexivity. apply IHd. by right.
  - rewrite (digits_from_lead _ _ _ _ 1) by reflexivity. apply digits_from_acc.
  - rewrite (digits_from_lead _ _ _ _ 2) by reflexivity. apply digits_from_acc.
  - rewrite (digits_from_lead _ _ _ _ 3) by reflexivity. apply digits_from_acc.
  - rewrite (digits_from_lead _ _ _ _ 4) by reflexivity. apply digits_from_acc.
  - rewrite (digits_from_lead _ _ _ _ 5) by reflexivity. apply digits_from_acc.
  - rewrite (digits_from_lead _ _ _ _ 6) by reflexivity. apply digits_from_acc.
  - rewrite (digits_from_lead _ _ _ _ 7) by reflexivity. apply digits_from_acc.
  - rewrite (digits_from_lead _ _ _ _ 8) by reflexivity. apply digits_from_acc.
  - rewrite (digits_from_lead _ _ _ _ 9) by reflexivity. apply digits_from_acc.
Qed.

Lemma digits_string_of_uint (d : Decimal.uint) :
  ∃ k, digits (NilZero.string_of_uint d) = Some (Z.of_uint d, k).
Proof.
  unfold Z.of_uint.
  destruct d; try (apply (digits_from_zero _ 0 false); by left).
  by eexists.
Qed.

Lemma string_of_uint_plain (d : Decimal.uint) (c : ascii) :
  In c (list_ascii_of_string (NilZero.string_of_uint d)) →
  isspace_ascii c = false ∧ (code c <? 128)%N = true.
Proof.
  intros Hc. apply digit_is_plain.
  destruct d; try (by apply (string_of_uint_digits _ c Hc)).
  simpl in Hc. by destruct Hc as [<-|[]].
Qed.

Lemma split_sign_uint (d : Decimal.uint) :
  split_sign (NilZero.string_of_uint d) = (false, NilZero.string_of_uint d).
Proof. by destruct d. Qed.

(** Reading back a printed integer gives the integer. *)
Lemma int_of_str_of_int (z : Z) : int_of_str (str_of_int z) = Some z.
Proof.
  rewrite <- (DecimalZ.of_to z) at 2.
  unfold str_of_int, int_of_str. destruct (Z.to_int z) as [d|d]; simpl Z.of_int.
  - unfold NilZero.string_of_int.
    rewrite number_body_id by apply string_of_uint_plain.
    rewrite split_sign_uint.
    by destruct (digits_string_of_uint d) as [k ->].
  - unfold NilZero.string_of_int.
    rewrite number_body_id.
    + cbn [split_sign]. by destruct (digits_string_of_uint d) as [k ->].
    + intros c [<-|Hc]; [by vm_compute|by apply (string_of_uint_plain d)].
Qed.

Lemma str_of_int_nonempty (z : Z) : String.eqb (str_of_int z) "" = false.
Proof.
  unfold str_of_int. destruct (Z.to_int z) as [d|d]; [|reflexivity].
  by destruct d.
Qed.

End IdentityFacts.

(* ===================================================================== *)
(** * Registration, login and tokens                                     *)
(* ===================================================================== *)

Section AuthProperties.
Import Py Models Schema Jwt Examples.
Context `{Werkzeug} `{Sql}.

(** ** Registration *)

(** [POST /register] of [app.py] reports both duplicates and stores
    nothing. *)
Lemma register_duplicate_username (data : gmap string json) (s : Store)
    (u : User) :
  truthy (get data "username") = true → truthy (get data "password") = true →
  User_find_by_username (get data "username") s = Some u →
  App.register data s = ((App.Msg (Lit "User already exists"), 409), s).
Proof.
  intros Hu Hp Hfind. unfold App.register. rewrite Hu, Hp, Hfind.
  assert (is_empty data = false) as ->; [|done].
  unfold is_empty. apply bool_decide_eq_false_2. intros ->.
  unfold get in Hu. by rewrite lookup_empty in Hu.
Qed.

Lemma register_duplicate_email (data : gmap string json) (s : Store)
    (u : User) :
  truthy (get data "username") = true → truthy (get data "password") = true →
  User_find_by_username (get data "username") s = None →
  truthy (get data "email") = true →
  User_find_by_email (get data "email") s = Some u →
  App.register data s = ((App.Msg (Lit "Email already registered"), 409), s).
Proof.
  intros Hu Hp Hfind He Hemail. unfold App.register.
  rewrite Hu, Hp, Hfind, He, Hemail.
  assert (is_empty data = false) as ->; [|done].
  unfold is_empty. apply bool_decide_eq_false_2. intros ->.
  unfold get in Hu. by rewrite lookup_empty in Hu.
Qed.

(** [POST /register] creates an account only when neither is a duplicate. *)
Lemma register_created_no_duplicate (data : gmap string json) (s : Store) :
  (App.register data s).1.2 = 201 →
  User_find_by_username (get data "username") s = None
  ∧ (truthy (get data "email") = true →
     User_find_by_email (get data "email") s = None).
Proof.
  unfold App.register. destruct (_ || _); [done|].
  destruct (User_find_by_username _ s); [done|].
  destruct (truthy (get data "email")); cbn [andb].
  - destruct (User_find_by_email _ s) eqn:He; [done|]. done.
  - done.
Qed.

(** [AuthService.register_user] reports a duplicate username. *)
Lemma register_user_duplicate_username (username password email : json)
    (s : Store) (u : User) :
  User_find_by_username username s = Some u →
  AuthService.register_user username password email s
  = ((false, Lit "User already exists", None), s).
Proof. intros Hu. unfold AuthService.register_user. by rewrite Hu. Qed.

(** C5.  [AuthService.register_user] looks for the username only: with an
    email that bob has registered, alice is refused by the unique
    constraint of the store and the answer is the message of a failed
    registration, where [POST /register] of [app.py] answers "Email already
    registered". *)
Theorem register_user_duplicate_email_unreported :
  AuthService.register_user (JStr "alice") (JStr "secret1")
    (JStr "bob@example.org") bob_store
  = ((false, Fstr "Registration failed: " (Exn IntegrityError None), None),
     bob_store)
  ∧ App.register
      (<["username" := JStr "alice"]>
         (<["password" := JStr "secret1"]>
            (<["email" := JStr "bob@example.org"]> ∅))) bob_store
    = ((App.Msg (Lit "Email already registered"), 409), bob_store).
Proof. split; reflexivity. Qed.

(** ** Tokens *)

(** [get_current_user] resolves the token [login] issues for an id to the
    row with that id; no other column is read. *)
Lemma get_current_user_of_token (n : Z) (s : Store) :
  AuthService.get_current_user (Valid (create_access_token (str_of_int n))) s
  = User_find_by_id n s.
Proof.
  unfold AuthService.get_current_user, get_jwt_identity, create_access_token.
  cbn [sub]. by rewrite str_of_int_nonempty, int_of_str_of_int.
Qed.

(** [authenticate_user] and [POST /login] issue that token. *)
Lemma authenticate_user_token (username password : json) (s : Store)
    (u : User) (t : token) (m : text) :
  AuthService.authenticate_user username password s = (true, m, Some t, Some u) →
  t = create_access_token (str_of_int (User_id u)) ∧ User_is_active u = true.
Proof.
  unfold AuthService.authenticate_user.
  destruct (User_find_by_username username s) as [user|]; [|done].
  destruct (User_is_active user) eqn:Hact; cbn [negb]; [|done].
  destruct (check_password user password) as [[]|e];
    cbn [mbind result_bind negb]; try done.
  by intros [= <- <- <-].
Qed.

(** The store operations of the product views do not read [users]. *)
Lemma Product_save_new_users (p : NewProduct) (us : list User) (s : Store) :
  Product_save_new p (set_users us s)
  = match Product_save_new p s with
    | Ok (row, s') => Ok (row, set_users us s')
    | Raise e => Raise e
    end.
Proof.
  unfold Product_save_new. cbn [products set_users].
  destruct (_ || _); [done|]. by destruct (existsb _ _).
Qed.

Lemma Product_save_users (p : Product) (us : list User) (s : Store) :
  Product_save p (set_users us s)
  = match Product_save p s with
    | Ok s' => Ok (set_users us s')
    | Raise e => Raise e
    end.
Proof.
  unfold Product_save. cbn [products set_users].
  destruct (_ || _); [done|]. by destruct (existsb _ _).
Qed.

Lemma update_quantity_users (p : Product) (q : json) (us : list User)
    (s : Store) :
  update_quantity p q (set_users us s)
  = match update_quantity p q s with
    | Ok (p', s') => Ok (p', set_users us s')
    | Raise e => Raise e
    end.
Proof.
  unfold update_quantity. destruct (lt0 q) as [[]|e]; cbn [mbind result_bind];
    try done.
  rewrite Product_save_users. by destruct (Product_save _ s).
Qed.

(** The answer of a product view and the products it leaves are the same
    whatever the table of users holds. *)
Lemma handle_ignores_users (t : token) (r : App.product_request)
    (us : list User) (s : Store) :
  App.handle (Valid t) r (set_users us s)
  = ((App.handle (Valid t) r s).1, set_users us (App.handle (Valid t) r s).2).
Proof.
  destruct r as [data|id data|id data|search|id|id];
    unfold App.handle, App.jwt_required.
  - unfold App.add_product, App.jwt_required.
    destruct (negb _); [done|].
    change (find_by_sku (get data "sku") (set_users us s))
      with (find_by_sku (get data "sku") s).
    destruct (find_by_sku _ s); [done|].
    destruct (int_of_str (sub t)) as [n|]; cbn [mbind result_bind raise]; [|done].
    rewrite Product_save_new_users.
    by destruct (Product_save_new _ s) as [[row s']|e].
  - unfold App.update_product, App.jwt_required.
    change (Product_get id (set_users us s)) with (Product_get id s).
    destruct (Product_get id s) as [p|]; [|done].
    destruct (is_empty data); [done|].
    destruct (data !! "quantity") as [q|].
    + rewrite update_quantity_users.
      destruct (update_quantity _ q s) as [[p' s1]|e]; [|done].
      rewrite Product_save_users.
      destruct (Product_save p' s1) as [s2|e]; [|done].
      by destruct (App.product_to_dict p').
    + rewrite Product_save_users.
      destruct (Product_save _ s) as [s2|e]; [|done].
      by destruct (App.product_to_dict _).
  - unfold App.update_product_quantity, App.jwt_required.
    change (Product_get id (set_users us s)) with (Product_get id s).
    destruct (Product_get id s) as [p|]; [|done].
    destruct (_ || _); [done|].
    rewrite update_quantity_users.
    destruct (update_quantity p _ s) as [[p' s1]|e]; [|done].
    by destruct (App.product_to_dict p').
  - unfold App.get_products, App.jwt_required.
    change (search_by_name search (set_users us s))
      with (search_by_name search s).
    change (all_active (set_users us s)) with (all_active s).
    by destruct (App.products_list _).
  - unfold App.get_product, App.jwt_required.
    change (Product_get id (set_users us s)) with (Product_get id s).
    destruct (Product_get id s) as [p|]; [|done].
    by destruct (App.product_to_dict p).
  - unfold App.delete_product, App.jwt_required.
    change (Product_get id (set_users us s)) with (Product_get id s).
    destruct (Product_get id s) as [p|]; [|done].
    rewrite Product_save_users. by destruct (Product_save _ s).
Qed.

(** With a verified token no product view answers 401 or 403. *)
Lemma handle_valid_token_status (t : token) (r : App.product_request)
    (s : Store) :
  (App.handle (Valid t) r s).1.2 ≠ 401 ∧ (App.handle (Valid t) r s).1.2 ≠ 403.
Proof.
  destruct r as [data|id data|id data|search|id|id];
    unfold App.handle, App.jwt_required.
  - unfold App.add_product, App.jwt_required.
    destruct (negb _); [done|]. destruct (find_by_sku _ s); [done|].
    destruct (int_of_str (sub t)); cbn [mbind result_bind raise]; [|done].
    by destruct (Product_save_new _ s) as [[row s']|e].
  - unfold App.update_product, App.jwt_required, App.update_failed.
    destruct (Product_get id s) as [p|]; [|done].
    destruct (is_empty data); [done|].
    destruct (match data !! "quantity" with Some _ => _ | None => _ end)
      as [[p' s1]|e]; [|by destruct (is_value_error e)].
    destruct (Product_save p' s1) as [s2|e]; [|by destruct (is_value_error e)].
    destruct (App.product_to_dict p') as [d|e]; [done|].
    by destruct (is_value_error e).
  - unfold App.update_product_quantity, App.jwt_required, App.update_failed.
    destruct (Product_get id s) as [p|]; [|done].
    destruct (_ || _); [done|].
    destruct (update_quantity p _ s) as [[p' s1]|e];
      [|by destruct (is_value_error e)].
    destruct (App.product_to_dict p') as [d|e]; [done|].
    by destruct (is_value_error e).
  - unfold App.get_products, App.jwt_required.
    by destruct (App.products_list _).
  - unfold App.get_product, App.jwt_required.
    destruct (Product_get id s) as [p|]; [|done].
    by destruct (App.product_to_dict p).
  - unfold App.delete_product, App.jwt_required.
    destruct (Product_get id s) as [p|]; [|done].
    by destruct (Product_save _ s).
Qed.

(** C9.  For an account whose [is_active] flag is off, the token that
    login issued for its id is still resolved to the account by
    [get_current_user], every token-protected product view runs with it:
    it does not answer 401 or 403 and its answer and products are what
    they are with any other table of users, the one with the account
    active included; [GET /profile] still shows the account.  Only
    [authenticate_user] and [POST /login] read the flag, and refuse. *)
Theorem deactivated_account_token_accepted (s : Store) (u : User) :
  User_find_by_id (User_id u) s = Some u → User_is_active u = false →
  let t := create_access_token (str_of_int (User_id u)) in
  AuthService.get_current_user (Valid t) s = Some u
  ∧ (∀ (r : App.product_request),
       (App.handle (Valid t) r s).1.2 ≠ 401
       ∧ (App.handle (Valid t) r s).1.2 ≠ 403
       ∧ ∀ us : list User,
           App.handle (Valid t) r (set_users us s)
           = ((App.handle (Valid t) r s).1,
              set_users us (App.handle (Valid t) r s).2))
  ∧ App.get_user_profile (Valid t) s = ((App.Data (App.user_to_dict u s), 200), s)
  ∧ (∀ username password : json,
       User_find_by_username username s = Some u →
       AuthService.authenticate_user username password s
       = (false, Lit "User account is deactivated", None, None))
  ∧ (∀ data : gmap string json,
       User_find_by_username (get data "username") s = Some u →
       check_password u (get data "password") = Ok true →
       (App.login data s).2 = 400
       ∨ App.login data s = (App.Msg (Lit "Account is deactivated"), 403)).
Proof.
  intros Hu Hact t. split; [|split; [|split; [|split]]].
  - subst t. by rewrite get_current_user_of_token.
  - intros r. destruct (handle_valid_token_status t r s) as [H401 H403].
    split; [exact H401|]. split; [exact H403|].
    intros us. apply handle_ignores_users.
  - subst t. unfold App.get_user_profile, App.jwt_required.
    cbn [sub create_access_token]. by rewrite int_of_str_of_int, Hu.
  - intros username password Hname. unfold AuthService.authenticate_user.
    by rewrite Hname, Hact.
  - intros data Hname Hpw. unfold App.login.
    destruct (_ || _); [by left|right]. by rewrite Hname, Hpw, Hact.
Qed.

End AuthProperties.

Lemma deactivated_account_token_accepted_witness :
  let W := Examples.toy_werkzeug in
  let Q := Examples.toy_sql in
  let s := Examples.deactivated_store in
  let t := Jwt.create_access_token (Py.str_of_int 1) in
  AuthService.get_current_user (Jwt.Valid t) s = Some Examples.bob_deactivated
  ∧ (∀ (r : App.product_request),
       (App.handle (Jwt.Valid t) r s).1.2 ≠ 401
       ∧ (App.handle (Jwt.Valid t) r s).1.2 ≠ 403
       ∧ ∀ us : list Models.User,
           App.handle (Jwt.Valid t) r (Models.set_users us s)
           = ((App.handle (Jwt.Valid t) r s).1,
              Models.set_users us (App.handle (Jwt.Valid t) r s).2))
  ∧ App.get_user_profile (Jwt.Valid t) s
    = ((App.Data (App.user_to_dict Examples.bob_deactivated s), 200), s)
  ∧ (∀ username password : Py.json,
       Models.User_find_by_username username s = Some Examples.bob_deactivated →
       AuthService.authenticate_user username password s
       = (false, Py.Lit "User account is deactivated", None, None))
  ∧ (∀ data : gmap string Py.json,
       Models.User_find_by_username (Py.get data "username") s
       = Some Examples.bob_deactivated →
       Models.check_password Examples.bob_deactivated (Py.get data "password")
       = Py.Ok true →
       (App.login data s).2 = 400
       ∨ App.login data s = (App.Msg (Py.Lit "Account is deactivated"), 403)).
Proof.
  intros W Q s t.
  apply (@deactivated_account_token_accepted W Q s Examples.bob_deactivated);
    reflexivity.
Defined.

(* ===================================================================== *)
(** * The declared constraints hold in every reachable store             *)
(* ===================================================================== *)

Section Invariant.
Import Py Models Schema Jwt Examples.

Lemma SFeqb_sym (f g : float) : SFeqb f g = SFeqb g f.
Proof.
  unfold SFeqb, SFcompare.
  destruct f as [[]|[]| |[] m e], g as [[]|[]| |[] m' e']; try reflexivity;
    rewrite (Z.compare_antisym e e'); destruct (e ?= e'); try reflexivity;
    cbn [CompOpp];
    change (Pos.compare_cont Eq m' m) with (Pos.compare m' m);
    change (Pos.compare_cont Eq m m') with (Pos.compare m m');
    rewrite (Pos.compare_antisym m m'); by destruct (Pos.compare m m').
Qed.

Lemma sql_eq_sym (a b : json) : sql_eq a b = sql_eq b a.
Proof.
  destruct a, b; try reflexivity; simpl.
  - by destruct b, b0.
  - apply Z.eqb_sym.
  - apply SFeqb_sym.
  - apply String.eqb_sym.
Qed.

Lemma next_id_above (ids : list Z) (i : Z) : i ∈ ids → i < next_id ids.
Proof.
  unfold next_id. induction ids as [|j ids IH]; [by intros ?%elem_of_nil|].
  intros [->|Hi]%elem_of_cons; simpl; [lia|]. specialize (IH Hi). lia.
Qed.

Lemma empty_store_ok : store_ok empty_store.
Proof.
  split; [constructor|]. split; [constructor|].
  intros p q Hp. by apply elem_of_nil in Hp.
Qed.

(** INSERT keeps the constraints. *)
Lemma Product_save_new_ok (np : NewProduct) (s s' : Store) (row : Product) :
  store_ok s → Product_save_new np s = Ok (row, s') → store_ok s'.
Proof.
  intros (Hrows & Hkeys & Hskus). unfold Product_save_new.
  destruct (is_null (np_name np)) eqn:N1; [done|].
  destruct (is_null (np_sku np)) eqn:N2; [done|].
  destruct (is_null (np_price np)) eqn:N3; [done|]. cbn [orb].
  destruct (existsb _ _) eqn:Hex; [done|]. intros [= <- <-].
  assert (∀ r, r ∈ products s →
               sql_eq (Product_sku r) (np_sku np) = false) as Hfresh.
  { intros r Hr. apply not_true_is_false. intros Heq.
    apply not_true_iff_false in Hex. apply Hex, existsb_exists.
    exists r. split; [by apply list_elem_of_In|done]. }
  split; [|split]; cbn [products set_products].
  - apply Forall_app. split; [done|]. constructor; [|constructor].
    repeat split; cbn; try done. by destruct (np_quantity np).
  - rewrite map_app. apply NoDup_app. split; [done|]. split.
    + intros i Hi Hin. apply next_id_above in Hi. cbn in Hin.
      apply list_elem_of_singleton in Hin. lia.
    + apply NoDup_singleton.
  - intros p q [Hp|Hp%list_elem_of_singleton]%elem_of_app
      [Hq|Hq%list_elem_of_singleton]%elem_of_app Heq; subst.
    + by apply Hskus.
    + cbn in Heq. by rewrite (Hfresh p Hp) in Heq.
    + cbn in Heq. rewrite sql_eq_sym in Heq. by rewrite (Hfresh q Hq) in Heq.
    + done.
Qed.

Lemma elem_of_replaced (i : Z) (p' r : Product) (l : list Product) :
  r ∈ map (replace_row i p') l →
  (r ∈ l ∧ Product_id r ≠ i) ∨ (r = p' ∧ ∃ r0, r0 ∈ l ∧ Product_id r0 = i).
Proof.
  intros (r0 & -> & Hr0)%list_elem_of_fmap. unfold replace_row.
  destruct (Product_id r0 =? i) eqn:Hi.
  - right. split; [done|]. exists r0. split; [done|lia].
  - left. split; [done|lia].
Qed.

(** UPDATE keeps the constraints. *)
Lemma Product_save_keeps_ok (p : Product) (s s' : Store) :
  store_ok s → Product_save p s = Ok s' → store_ok s'.
Proof.
  intros (Hrows & Hkeys & Hskus). unfold Product_save.
  destruct (is_null (Product_name p)) eqn:N1; [done|].
  destruct (is_null (Product_sku p)) eqn:N2; [done|].
  destruct (is_null (Product_quantity p)) eqn:N3; [done|].
  destruct (is_null (Product_price p)) eqn:N4; [done|]. cbn [orb].
  destruct (existsb _ _) eqn:Hex; [done|]. intros [= <-].
  assert (∀ r, r ∈ products s → Product_id r ≠ Product_id p →
               sql_eq (Product_sku r) (Product_sku p) = false) as Hfresh.
  { intros r Hr Hne. apply not_true_is_false. intros Heq.
    apply not_true_iff_false in Hex. apply Hex, existsb_exists.
    exists r. split; [by apply list_elem_of_In|].
    apply andb_true_intro. split; [|done].
    apply negb_true_iff, Z.eqb_neq. done. }
  split; [|split]; cbn [products set_products].
  - apply Forall_forall. intros r [[Hr _]|[-> _]]%elem_of_replaced.
    + by eapply Forall_forall in Hrows.
    + done.
  - rewrite map_map.
    erewrite map_ext; [exact Hkeys|]. intros r. cbn. unfold replace_row.
    destruct (Product_id r =? Product_id p) eqn:Hi; [lia|done].
  - intros a b [[Ha Hna]|[-> _]]%elem_of_replaced
      [[Hb Hnb]|[-> _]]%elem_of_replaced Heq.
    + by apply Hskus.
    + by rewrite (Hfresh a Ha Hna) in Heq.
    + rewrite sql_eq_sym in Heq. by rewrite (Hfresh b Hb Hnb) in Heq.
    + done.
Qed.

Lemma update_quantity_keeps_ok (p p' : Product) (q : json) (s s' : Store) :
  store_ok s → update_quantity p q s = Ok (p', s') → store_ok s'.
Proof.
  intros Hok. unfold update_quantity.
  destruct (lt0 q) as [[]|e]; cbn [mbind result_bind]; try done.
  destruct (Product_save _ s) as [s1|e] eqn:Hs; cbn [mbind result_bind];
    [|done].
  intros [= <- <-]. by eapply Product_save_keeps_ok.
Qed.

(** The services keep the constraints. *)
Lemma create_product_keeps_ok (data : gmap string json)
    (created_by : option Z) (s : Store) :
  store_ok s → store_ok (ProductService.create_product data created_by s).2.
Proof.
  intros Hok. unfold ProductService.create_product.
  destruct (ProductService.validate_product_data data) as [[is_valid errors]|e];
    cbn [mbind result_bind]; [|done].
  destruct is_valid; cbn [negb]; [|done].
  destruct (getitem data "sku") as [sku|e]; cbn [mbind result_bind]; [|done].
  destruct (find_by_sku sku s); [done|].
  destruct (getitem data "name") as [name|e]; cbn [mbind result_bind]; [|done].
  destruct (getitem data "quantity") as [q|e]; cbn [mbind result_bind]; [|done].
  destruct (getitem data "price") as [p|e]; cbn [mbind result_bind]; [|done].
  destruct (Product_save_new _ s) as [[row s']|e] eqn:Hs;
    cbn [mbind result_bind]; [|done].
  by eapply Product_save_new_ok.
Qed.

Lemma service_update_keeps_ok (id : Z) (q : json) (s : Store) :
  store_ok s → store_ok (ProductService.update_product_quantity id q s).2.
Proof.
  intros Hok. unfold ProductService.update_product_quantity.
  destruct (Product_get id s) as [p|]; [|done].
  destruct (negb (Product_is_active p)); [done|].
  destruct (negb (isinstance_int q)); cbn [mbind result_bind].
  - done.
  - destruct (lt0 q) as [[]|e]; cbn [mbind result_bind]; [done| |].
    + destruct (update_quantity p q s) as [[p' s']|e] eqn:Hu;
        cbn [mbind result_bind].
      * by eapply update_quantity_keeps_ok.
      * by destruct (is_value_error e).
    + by destruct (is_value_error e).
Qed.

(** Every product view of [app.py] keeps the constraints. *)
Lemma handle_keeps_ok `{Sql} (b : bearer) (r : App.product_request)
    (s : Store) :
  store_ok s → store_ok (App.handle b r s).2.
Proof.
  intros Hok.
  destruct r as [data|id data|id data|search|id|id];
    unfold App.handle;
    [unfold App.add_product|unfold App.update_product
    |unfold App.update_product_quantity|unfold App.get_products
    |unfold App.get_product|unfold App.delete_product];
    unfold App.jwt_required; destruct b as [| |t|t]; try done.
  - destruct (negb _); [done|]. destruct (find_by_sku _ s); [done|].
    destruct (int_of_str (sub t)); cbn [mbind result_bind raise]; [|done].
    destruct (Product_save_new _ s) as [[row s']|e] eqn:Hs; [|done].
    by eapply Product_save_new_ok.
  - destruct (Product_get id s) as [p|]; [|done].
    destruct (is_empty data); [done|].
    assert (∀ p1 s1,
      match data !! "quantity" with
      | Some q => update_quantity (App.assign_fields data p) q s
      | None => Ok (App.assign_fields data p, s)
      end = Ok (p1, s1) → store_ok s1) as Hu.
    { intros p1 s1. destruct (data !! "quantity").
      - by apply update_quantity_keeps_ok.
      - by intros [= <- <-]. }
    destruct (match data !! "quantity" with Some _ => _ | None => _ end)
      as [[p1 s1]|e]; [|done].
    specialize (Hu p1 s1 eq_refl).
    destruct (Product_save p1 s1) as [s2|e] eqn:Hs; [|done].
    apply (Product_save_keeps_ok _ _ _ Hu) in Hs.
    by destruct (App.product_to_dict p1).
  - destruct (Product_get id s) as [p|]; [|done].
    destruct (_ || _); [done|].
    destruct (update_quantity p _ s) as [[p' s1]|e] eqn:Hu; [|done].
    apply (update_quantity_keeps_ok _ _ _ _ _ Hok) in Hu.
    by destruct (App.product_to_dict p').
  - by destruct (App.products_list _).
  - destruct (Product_get id s) as [p|]; [|done].
    by destruct (App.product_to_dict p).
  - destruct (Product_get id s) as [p|]; [|done].
    destruct (Product_save _ s) as [s'|e] eqn:Hs; [|done].
    by eapply Product_save_keeps_ok.
Qed.

End Invariant.

(* ===================================================================== *)
(** * Further properties: validation and creation of products            *)
(* ===================================================================== *)

Section MoreCreate.
Import Py Models Schema ProductService Examples Invariants.

Lemma contains_inv (d : gmap string json) (k : string) :
  contains d k = true → ∃ v, d !! k = Some v.
Proof. unfold contains. intros [v Hv]%bool_decide_eq_true_1. by exists v. Qed.

Lemma snoc_not_nil {A} (l : list A) (x : A) : (l ++ [x])%list ≠ [].
Proof. by destruct l. Qed.

(** What an accepted body contains. *)
Lemma validate_product_data_true_inv (data : gmap string json)
    (errs : list string) :
  validate_product_data data = Ok (true, errs) →
  errs = []
  ∧ ∃ (name sku : string) (q p : json) (n : Z) (f : float),
      data !! "name" = Some (JStr name) ∧ 2 <= len (strip name)
      ∧ data !! "sku" = Some (JStr sku) ∧ 3 <= len (strip sku)
      ∧ data !! "quantity" = Some q ∧ int q = Ok n ∧ 0 <= n
      ∧ data !! "price" = Some p ∧ to_float p = Ok f
      ∧ float_lt0 f = false.
Proof.
  unfold validate_product_data. destruct (is_empty data); [done|].
  unfold required_fields. cbn [foldl].
  match goal with |- context [mbind _ ?m] => idtac end.
  set (E := (if contains data "price" then _ else _)).
  assert (E = [] → ∃ n s q p, data !! "name" = Some n ∧ data !! "sku" = Some s
            ∧ data !! "quantity" = Some q ∧ data !! "price" = Some p) as HE.
  { subst E. intros HE.
    destruct (contains data "name") eqn:Hn, (contains data "sku") eqn:Hs,
      (contains data "quantity") eqn:Hq, (contains data "price") eqn:Hp;
      try (by apply snoc_not_nil in HE).
    apply contains_inv in Hn as [n ?], Hs as [s ?], Hq as [q ?], Hp as [p ?].
    by exists n, s, q, p. }
  clearbody E. intros H. unfold mbind, result_bind in H.
  destruct (match data !! "name" with Some _ => _ | None => _ end)
    as [e1|] eqn:H1; [|done].
  destruct (match data !! "sku" with Some _ => _ | None => _ end)
    as [e2|] eqn:H2; [|done].
  destruct (match data !! "quantity" with Some _ => _ | None => _ end)
    as [e3|] eqn:H3; [|done].
  destruct (match data !! "price" with Some _ => _ | None => _ end)
    as [e4|] eqn:H4; [|done].
  injection H as He4%bool_decide_eq_true_1 <-. subst e4.
  assert (e3 = [] ∧ ∀ p, data !! "price" = Some p →
            ∃ f, to_float p = Ok f ∧ float_lt0 f = false) as [-> Hprice].
  { destruct (data !! "price") as [p|]; [|by injection H4 as ->].
    destruct (to_float p) as [f|e] eqn:Hf.
    - destruct (float_lt0 f) eqn:Hlt; injection H4 as H4;
        [by apply snoc_not_nil in H4|].
      split; [done|]. intros ? [= <-]. eauto.
    - destruct (is_value_or_type_error e); [|done].
      injection H4 as H4. by apply snoc_not_nil in H4. }
  assert (e2 = [] ∧ ∀ q, data !! "quantity" = Some q →
            ∃ n, int q = Ok n ∧ 0 <= n) as [-> Hquantity].
  { destruct (data !! "quantity") as [q|]; [|by injection H3 as ->].
    destruct (int q) as [n|e] eqn:Hn.
    - destruct (n <? 0) eqn:Hlt; injection H3 as H3;
        [by apply snoc_not_nil in H3|].
      split; [done|]. intros ? [= <-]. exists n. split; [done|lia].
    - destruct (is_value_or_type_error e); [|done].
      injection H3 as H3. by apply snoc_not_nil in H3. }
  assert (e1 = [] ∧ ∀ v, data !! "sku" = Some v →
            ∃ sku, v = JStr sku ∧ 3 <= len (strip sku)) as [-> Hsku].
  { destruct (data !! "sku") as [v|]; [|by injection H2 as ->].
    destruct (truthy v); cbn [negb] in H2.
    - destruct v; try done. cbn [str_strip] in H2.
      destruct (len (strip s) <? 3) eqn:Hlt; injection H2 as H2;
        [by apply snoc_not_nil in H2|].
      split; [done|]. intros ? [= <-]. exists s. split; [done|lia].
    - injection H2 as H2. by apply snoc_not_nil in H2. }
  assert (E = [] ∧ ∀ v, data !! "name" = Some v →
            ∃ name, v = JStr name ∧ 2 <= len (strip name)) as [-> Hname].
  { destruct (data !! "name") as [v|]; [|by injection H1 as ->].
    destruct (truthy v); cbn [negb] in H1.
    - destruct v; try done. cbn [str_strip] in H1.
      destruct (len (strip s) <? 2) eqn:Hlt; injection H1 as H1;
        [by apply snoc_not_nil in H1|].
      split; [done|]. intros ? [= <-]. exists s. split; [done|lia].
    - injection H1 as H1. by apply snoc_not_nil in H1. }
  split; [done|].
  destruct (HE eq_refl) as (vn & vs & q & p & Kn & Ks & Kq & Kp).
  destruct (Hname _ Kn) as (name & -> & ?), (Hsku _ Ks) as (sku & -> & ?).
  destruct (Hquantity _ Kq) as (n & ? & ?), (Hprice _ Kp) as (f & ? & ?).
  by exists name, sku, q, p, n, f.
Qed.

(** X1.  [validate_product_data] accepts a body exactly when the four
    required fields are present, name and sku are strings of at least 2
    and 3 characters once stripped, [int(quantity)] exists and is not
    negative, and [float(price)] exists and is not below zero. *)
Theorem validate_product_data_accepts (data : gmap string json)
    (errs : list string) :
  validate_product_data data = Ok (true, errs)
  ↔ errs = []
    ∧ ∃ (name sku : string) (q p : json) (n : Z) (f : float),
        data !! "name" = Some (JStr name) ∧ 2 <= len (strip name)
        ∧ data !! "sku" = Some (JStr sku) ∧ 3 <= len (strip sku)
        ∧ data !! "quantity" = Some q ∧ int q = Ok n ∧ 0 <= n
        ∧ data !! "price" = Some p ∧ to_float p = Ok f
        ∧ float_lt0 f = false.
Proof.
  split; [apply validate_product_data_true_inv|].
  intros (-> & name & sku & q & p & n & f & H).
  destruct H as (? & ? & ? & ? & ? & ? & ? & ? & ? & ?).
  by eapply validate_product_data_ok.
Qed.
(** The errors [validate_product_data] returns: the missing required
    fields in order, followed by messages of the four checks. *)
Lemma validate_product_data_errors (data : gmap string json) (v : bool)
    (errs : list string) :
  validate_product_data data = Ok (v, errs) →
  v = bool_decide (errs = [])
  ∧ ((is_empty data = true ∧ errs = ["No data provided"])
     ∨ (is_empty data = false
        ∧ ∃ l, errs = (foldl (fun errors field =>
                                if contains data field then errors
                                else errors ++ [field +:+ " is required"])
                             [] required_fields ++ l)%list
               ∧ Forall (.∈ ["Product name must be at least 2 characters long";
                             "SKU must be at least 3 characters long";
                             "Quantity cannot be negative";
                             "Quantity must be a valid integer";
                             "Price cannot be negative";
                             "Price must be a valid number"]) l)).
Proof.
  unfold validate_product_data. destruct (is_empty data).
  { intros [= <- <-]. split; [done|]. by left. }
  set (E := foldl _ [] required_fields). clearbody E.
  intros H. unfold mbind, result_bind in H.
  destruct (match data !! "name" with Some _ => _ | None => _ end)
    as [e1|] eqn:H1; [|done].
  destruct (match data !! "sku" with Some _ => _ | None => _ end)
    as [e2|] eqn:H2; [|done].
  destruct (match data !! "quantity" with Some _ => _ | None => _ end)
    as [e3|] eqn:H3; [|done].
  destruct (match data !! "price" with Some _ => _ | None => _ end)
    as [e4|] eqn:H4; [|done].
  injection H as <- <-. split; [done|]. right. split; [done|].
  assert (∃ m, e1 = (E ++ m)%list
               ∧ Forall (.∈ ["Product name must be at least 2 characters long"]) m)
    as (m1 & -> & F1).
  { destruct (data !! "name") as [x|].
    - destruct (if negb (truthy x) then _ else _) as [[]|]; [| |done];
        injection H1 as <-.
      + eexists. split; [done|]. repeat constructor.
      + exists []. by rewrite app_nil_r.
    - injection H1 as <-. exists []. by rewrite app_nil_r. }
  assert (∃ m, e2 = (E ++ m1 ++ m)%list
               ∧ Forall (.∈ ["SKU must be at least 3 characters long"]) m)
    as (m2 & -> & F2).
  { destruct (data !! "sku") as [x|].
    - destruct (if negb (truthy x) then _ else _) as [[]|]; [| |done];
        injection H2 as <-.
      + eexists. split; [by rewrite <- app_assoc|]. repeat constructor.
      + exists []. by rewrite app_nil_r.
    - injection H2 as <-. exists []. by rewrite app_nil_r. }
  assert (∃ m, e3 = (E ++ m1 ++ m2 ++ m)%list
               ∧ Forall (.∈ ["Quantity cannot be negative";
                             "Quantity must be a valid integer"]) m)
    as (m3 & -> & F3).
  { destruct (data !! "quantity") as [x|].
    - destruct (int x) as [n|e].
      + destruct (n <? 0); injection H3 as <-.
        * eexists. split; [by rewrite <- !app_assoc|].
          repeat constructor.
        * exists []. by rewrite app_nil_r.
      + destruct (is_value_or_type_error e); [|done]. injection H3 as <-.
        eexists. split; [by rewrite <- !app_assoc|].
        constructor; [in_list|constructor].
    - injection H3 as <-. exists []. by rewrite app_nil_r. }
  assert (∃ m, e4 = (E ++ m1 ++ m2 ++ m3 ++ m)%list
               ∧ Forall (.∈ ["Price cannot be negative";
                             "Price must be a valid number"]) m)
    as (m4 & -> & F4).
  { destruct (data !! "price") as [x|].
    - destruct (to_float x) as [f|e].
      + destruct (float_lt0 f); injection H4 as <-.
        * eexists. split; [by rewrite <- !app_assoc|].
          repeat constructor.
        * exists []. by rewrite app_nil_r.
      + destruct (is_value_or_type_error e); [|done]. injection H4 as <-.
        eexists. split; [by rewrite <- !app_assoc|].
        constructor; [in_list|constructor].
    - injection H4 as <-. exists []. by rewrite app_nil_r. }
  exists (m1 ++ m2 ++ m3 ++ m4)%list. split; [done|].
  repeat apply Forall_app_2;
    (eapply Forall_impl; [eassumption|]); intros m Hm; cbn beta in Hm; in_list.
Qed.

(** X2.  A body that is not empty and lacks a required field is not
    accepted: whenever validation returns, the answer names the missing
    field, and [create_product] gives the joined messages back and stores
    nothing. *)
Theorem validate_product_data_missing_field (data : gmap string json)
    (field : string) (v : bool) (errs : list string)
    (created_by : option Z) (s : Store) :
  field ∈ required_fields → data !! field = None →
  validate_product_data data = Ok (v, errs) → is_empty data = false →
  v = false ∧ (field +:+ " is required") ∈ errs
  ∧ create_product data created_by s
    = ((false, Lit (join "; " errs), None), s).
Proof.
  intros Hfield Hmiss Hv Hne.
  destruct (validate_product_data_errors _ _ _ Hv) as [-> [[He _]|(_ & l & -> & _)]];
    [congruence|].
  assert ((field +:+ " is required")
          ∈ foldl (fun errors field =>
                     if contains data field then errors
                     else errors ++ [field +:+ " is required"])%list
                  [] required_fields) as Hin.
  { unfold required_fields in *. cbn [foldl].
    apply contains_false in Hmiss.
    repeat (apply elem_of_cons in Hfield as [->|Hfield]);
      [..|by apply elem_of_nil in Hfield]; rewrite Hmiss;
      repeat case_match;
      repeat (apply elem_of_app; first [by right; in_list | left]). }
  assert ((field +:+ " is required")
          ∈ (foldl (fun errors field =>
                      if contains data field then errors
                      else errors ++ [field +:+ " is required"])
                   [] required_fields ++ l)%list) as Hin'
    by (apply elem_of_app; by left).
  assert (bool_decide
            ((foldl (fun errors field =>
                       if contains data field then errors
                       else errors ++ [field +:+ " is required"])
                    [] required_fields ++ l)%list = []) = false) as Hb.
  { apply bool_decide_eq_false_2. intros Hnil. rewrite Hnil in Hin'.
    by apply elem_of_nil in Hin'. }
  split; [done|]. split; [done|].
  unfold create_product. rewrite Hv, Hb. reflexivity.
Qed.

Lemma validate_product_data_missing_field_witness :
  let data : gmap string json := <["name" := JStr "Widget"]> ∅ in
  let errs := ["sku is required"; "quantity is required"; "price is required"] in
  false = false ∧ ("price" +:+ " is required") ∈ errs
  ∧ create_product data None empty_store
    = ((false, Lit (join "; " errs), None), empty_store).
Proof.
  apply (validate_product_data_missing_field (<["name" := JStr "Widget"]> ∅)
           "price" false
           ["sku is required"; "quantity is required"; "price is required"]
           None empty_store);
    [in_list|reflexivity|reflexivity|reflexivity].
Defined.

(** X3.  [create_product] either fails, returns no product and leaves the
    store as it was, or succeeds on a validated body and appends exactly
    one row: active, with a key above every key in the table, owned by
    [created_by]; the rows already there and the users are not touched. *)
Theorem create_product_store_effect (data : gmap string json)
    (created_by : option Z) (s : Store) :
  let r := create_product data created_by s in
  (r.1.1.1 = false ∧ r.1.2 = None ∧ r.2 = s)
  ∨ (r.1.1.1 = true
     ∧ validate_product_data data = Ok (true, [])
     ∧ ∃ row, r.1.2 = Some row
              ∧ products r.2 = (products s ++ [row])%list
              ∧ users r.2 = users s
              ∧ Product_is_active row = true
              ∧ Product_created_by row = created_by
              ∧ Some (Product_sku row) = data !! "sku"
              ∧ ∀ p, p ∈ products s → Product_id p < Product_id row).
Proof.
  unfold create_product.
  destruct (validate_product_data data) as [[is_valid errors]|e] eqn:Hv;
    cbn [mbind result_bind]; [|by left].
  destruct is_valid; cbn [negb]; [|by left].
  assert (errors = []) as -> by (by apply validate_product_data_true_inv in Hv as [-> _]).
  unfold getitem. destruct (data !! "sku") as [sku|]; cbn [mbind result_bind];
    [|by left].
  destruct (find_by_sku sku s); [by left|].
  destruct (data !! "name") as [name|]; cbn [mbind result_bind]; [|by left].
  destruct (data !! "quantity") as [q|]; cbn [mbind result_bind]; [|by left].
  destruct (data !! "price") as [p|]; cbn [mbind result_bind]; [|by left].
  unfold Product_save_new. destruct (_ || _); [by left|].
  destruct (existsb _ _); [by left|]. cbn [mbind result_bind].
  right. split; [done|]. split; [done|]. eexists. split; [done|].
  cbn. repeat (split; [done|]).
  intros r Hr. apply next_id_above. by apply list_elem_of_fmap_2.
Qed.

End MoreCreate.

(* ===================================================================== *)
(** * Further properties: the quantity of a product                      *)
(* ===================================================================== *)

Section MoreQuantity.
Import Py Models Schema Jwt Examples Invariants MoreExamples.






End MoreQuantity.

(* ===================================================================== *)
(** * Further properties: the product views of app.py                    *)
(* ===================================================================== *)

Section MoreViews.
Import Py Models Schema Jwt Examples Invariants MoreExamples.
Context `{Sql}.

Lemma find_map_replace_row (i j : Z) (p' : Product) (l : list Product) :
  Product_id p' = i →
  find (fun r => Product_id r =? j) (map (replace_row i p') l)
  = replace_row i p' <$> find (fun r => Product_id r =? j) l.
Proof.
  intros Hid. induction l as [|a l IH]; [done|]. cbn [map find].
  assert ((Product_id (replace_row i p' a) =? j) = (Product_id a =? j)) as ->.
  { unfold replace_row. destruct (Product_id a =? i) eqn:Ha; [|done].
    rewrite Hid. f_equal. lia. }
  destruct (Product_id a =? j); [done|exact IH].
Qed.

Lemma find_app_Some {A} (f : A → bool) (l k : list A) (x : A) :
  find f l = Some x → find f (l ++ k) = Some x.
Proof.
  induction l as [|a l IH]; [done|]. simpl. destruct (f a); [done|exact IH].
Qed.

(** Reading a product back after an UPDATE. *)
Lemma Product_get_after_save (p' : Product) (j : Z) (s s' : Store) :
  Product_save p' s = Ok s' →
  Product_get j s' = replace_row (Product_id p') p' <$> Product_get j s.
Proof.
  intros ->%Product_save_eq. unfold Product_get. cbn [products set_products].
  by apply find_map_replace_row.
Qed.

Lemma Product_get_after_update_quantity (p p' : Product) (q : json) (j : Z)
    (s s' : Store) :
  update_quantity p q s = Ok (p', s') →
  p' = with_quantity q p
  ∧ Product_get j s' = replace_row (Product_id p) p' <$> Product_get j s.
Proof.
  unfold update_quantity. destruct (lt0 q) as [[]|e]; cbn [mbind result_bind];
    try done.
  destruct (Product_save _ s) as [s1|e] eqn:Hs; cbn [mbind result_bind];
    [|done].
  intros [= <- <-]. split; [done|]. by rewrite (Product_get_after_save _ _ _ _ Hs).
Qed.

(** X6.  No product view reactivates a product: one that is inactive is
    still there, and still inactive, after any request with any token. *)
Theorem handle_keeps_inactive (b : bearer) (r : App.product_request)
    (s : Store) (id : Z) (p : Product) :
  Product_get id s = Some p → Product_is_active p = false →
  ∃ p', Product_get id (App.handle b r s).2 = Some p'
        ∧ Product_is_active p' = false.
Proof.
  intros Hp Hact.
  assert (∀ (s1 s2 : Store) (i : Z) (p1 p2 : Product),
            Product_get id s1 = Some p2 → Product_is_active p2 = false →
            Product_get id s2 = replace_row i p1 <$> Product_get id s1 →
            (i = id → Product_is_active p1 = false) →
            ∃ p', Product_get id s2 = Some p' ∧ Product_is_active p' = false)
    as Hstep.
  { intros s1 s2 i p1 p2 Hp2 Hact2 Hg Hsame. rewrite Hg, Hp2. cbn.
    eexists. split; [done|]. unfold replace_row.
    destruct (Product_id p2 =? i) eqn:Hi; [|done].
    destruct (Product_get_Some _ _ _ Hp2) as [_ Hpid]. apply Hsame. lia. }
  assert (∀ i p0, Product_get i s = Some p0 → i = id →
                  Product_is_active p0 = false) as Hsame.
  { intros i p0 Hp0 ->. congruence. }
  destruct r as [data|i data|i data|search|i|i]; unfold App.handle;
    [unfold App.add_product|unfold App.update_product
    |unfold App.update_product_quantity|unfold App.get_products
    |unfold App.get_product|unfold App.delete_product];
    unfold App.jwt_required; destruct b as [| |t|t]; try (by exists p).
  - destruct (negb _); [by exists p|].
    destruct (find_by_sku _ s); [by exists p|].
    destruct (int_of_str (sub t)); cbn [mbind result_bind raise];
      [|by exists p].
    unfold Product_save_new. destruct (_ || _); [by exists p|].
    destruct (existsb _ _); [by exists p|]. cbn [snd].
    exists p. split; [|done]. unfold Product_get. cbn [products set_products].
    by apply find_app_Some.
  - destruct (Product_get i s) as [p0|] eqn:Hp0; [|by exists p].
    destruct (is_empty data); [by exists p|].
    destruct (Product_get_Some _ _ _ Hp0) as [_ Hid0].
    specialize (Hsame i p0 Hp0).
    destruct (data !! "quantity") as [q|].
    + destruct (update_quantity _ q s) as [[p1 s1]|e] eqn:Hu;
        [|by exists p].
      apply (Product_get_after_update_quantity _ _ _ id) in Hu as [-> Hg1].
      cbn [Product_id App.assign_fields] in Hg1. rewrite Hid0 in Hg1.
      destruct (Hstep s s1 i _ p Hp Hact Hg1 Hsame) as (p2 & Hp2 & Hact2).
      destruct (Product_save _ s1) as [s2|e] eqn:Hs; [|by exists p2].
      pose proof (Product_get_after_save _ id _ _ Hs) as Hg2.
      cbn [Product_id with_quantity App.assign_fields] in Hg2.
      rewrite Hid0 in Hg2.
      destruct (Hstep s1 s2 i _ p2 Hp2 Hact2 Hg2 Hsame) as (p3 & Hp3 & Hact3).
      destruct (App.product_to_dict _); by exists p3.
    + destruct (Product_save _ s) as [s2|e] eqn:Hs; [|by exists p].
      pose proof (Product_get_after_save _ id _ _ Hs) as Hg2.
      cbn [Product_id App.assign_fields] in Hg2. rewrite Hid0 in Hg2.
      destruct (Hstep s s2 i _ p Hp Hact Hg2 Hsame) as (p3 & Hp3 & Hact3).
      destruct (App.product_to_dict _); by exists p3.
  - destruct (Product_get i s) as [p0|] eqn:Hp0; [|by exists p].
    destruct (_ || _); [by exists p|].
    destruct (Product_get_Some _ _ _ Hp0) as [_ Hid0].
    specialize (Hsame i p0 Hp0).
    destruct (update_quantity p0 _ s) as [[p1 s1]|e] eqn:Hu; [|by exists p].
    apply (Product_get_after_update_quantity _ _ _ id) in Hu as [-> Hg1].
    rewrite Hid0 in Hg1.
    destruct (Hstep s s1 i _ p Hp Hact Hg1 Hsame) as (p2 & Hp2 & Hact2).
    destruct (App.product_to_dict _); by exists p2.
  - destruct (App.products_list _); by exists p.
  - destruct (Product_get i s) as [p0|]; [|by exists p].
    destruct (App.product_to_dict p0); by exists p.
  - destruct (Product_get i s) as [p0|] eqn:Hp0; [|by exists p].
    destruct (Product_get_Some _ _ _ Hp0) as [_ Hid0].
    destruct (Product_save _ s) as [s2|e] eqn:Hs; [|by exists p].
    pose proof (Product_get_after_save _ id _ _ Hs) as Hg2.
    cbn [Product_id with_is_active] in Hg2. rewrite Hid0 in Hg2.
    by apply (Hstep s s2 i _ p Hp Hact Hg2).
Qed.

Lemma NoDup_map_inj {A B} (f : A → B) (l : list A) (x y : A) :
  NoDup (map f l) → x ∈ l → y ∈ l → f x = f y → x = y.
Proof.
  induction l as [|a l IH]; [by intros _ ?%elem_of_nil|].
  cbn [map]. intros [Hnot Hnd]%NoDup_cons
    [->|Hx]%elem_of_cons [->|Hy]%elem_of_cons Hf; try done.
  - destruct Hnot. rewrite Hf. by apply list_elem_of_fmap_2.
  - destruct Hnot. rewrite <- Hf. by apply list_elem_of_fmap_2.
  - by apply IH.
Qed.

(** An UPDATE keeps the keys when the rows it replaces carry them. *)
Lemma Product_save_row_keys (p' : Product) (s s' : Store) :
  Product_save p' s = Ok s' →
  (∀ r, r ∈ products s → Product_id r = Product_id p' →
        row_key r = row_key p') →
  map row_key (products s') = map row_key (products s).
Proof.
  intros ->%Product_save_eq Hrows. cbn [products set_products].
  rewrite map_map. apply map_ext_in. intros r Hr%list_elem_of_In.
  unfold replace_row. destruct (Product_id r =? Product_id p') eqn:Hi; [|done].
  symmetry. apply Hrows; [done|lia].
Qed.

Lemma rows_with_key (s : Store) (i : Z) (p0 r : Product) :
  store_ok s → Product_get i s = Some p0 → r ∈ products s →
  Product_id r = i → r = p0.
Proof.
  intros (_ & Hkeys & _) [Hin Hid]%Product_get_Some Hr Hri.
  apply (NoDup_map_inj Product_id (products s)); [done..|congruence].
Qed.

Lemma update_quantity_row_keys (p p' : Product) (q : json) (s s' : Store) :
  update_quantity p q s = Ok (p', s') →
  (∀ r, r ∈ products s → Product_id r = Product_id p →
        row_key r = row_key p) →
  p' = with_quantity q p
  ∧ map row_key (products s') = map row_key (products s)
  ∧ ∀ r, r ∈ products s' → Product_id r = Product_id p → r = p'.
Proof.
  unfold update_quantity. destruct (lt0 q) as [[]|e]; cbn [mbind result_bind];
    try done.
  destruct (Product_save _ s) as [s1|e] eqn:Hs; cbn [mbind result_bind];
    [|done].
  intros [= <- <-] Hrows. split; [done|]. split.
  - by apply (Product_save_row_keys _ _ _ Hs).
  - apply Product_save_eq in Hs as ->. cbn [products set_products].
    intros r [[_ Hne]|[-> _]]%elem_of_replaced Hid; [|done].
    by cbn [Product_id with_quantity] in Hne.
Qed.

(** X7.  In a store that satisfies the declared constraints, no product
    view changes the id, the sku or the owner of an existing row or
    removes a row: only [POST /products] adds one, at the end. *)
Theorem handle_keeps_row_keys (b : bearer) (r : App.product_request)
    (s : Store) :
  store_ok s →
  ∃ l, map row_key (products (App.handle b r s).2)
       = (map row_key (products s) ++ l)%list
       ∧ match r with
         | App.AddProduct _ => (length l <= 1)%nat
         | _ => l = []
         end.
Proof.
  intros Hok.
  assert (∀ T (x : T), ∃ l : list (Z * json * option Z),
            map row_key (products (x, s).2)
            = (map row_key (products s) ++ l)%list ∧ l = []) as Hsame.
  { intros T x. exists []. by rewrite app_nil_r. }
  assert (∀ T (x : T) s', map row_key (products s') = map row_key (products s) →
            ∃ l : list (Z * json * option Z),
              map row_key (products (x, s').2)
              = (map row_key (products s) ++ l)%list ∧ l = []) as Hkeep.
  { intros T x s' Hs'. exists []. by rewrite app_nil_r. }
  destruct r as [data|i data|i data|search|i|i]; unfold App.handle;
    [unfold App.add_product|unfold App.update_product
    |unfold App.update_product_quantity|unfold App.get_products
    |unfold App.get_product|unfold App.delete_product];
    unfold App.jwt_required; destruct b as [| |t|t];
    try apply Hsame;
    try (by (exists []; rewrite app_nil_r; split; [done|cbn; lia])).
  - destruct (negb _); [exists []; rewrite app_nil_r; split; [done|cbn; lia]|].
    destruct (find_by_sku _ s);
      [exists []; rewrite app_nil_r; split; [done|cbn; lia]|].
    destruct (int_of_str (sub t)); cbn [mbind result_bind raise];
      [|exists []; rewrite app_nil_r; split; [done|cbn; lia]].
    unfold Product_save_new.
    destruct (_ || _); [exists []; rewrite app_nil_r; split; [done|cbn; lia]|].
    destruct (existsb _ _);
      [exists []; rewrite app_nil_r; split; [done|cbn; lia]|].
    cbn [snd products set_products]. rewrite map_app. eexists.
    split; [done|]. cbn. lia.
  - destruct (Product_get i s) as [p0|] eqn:Hp0; [|apply Hsame].
    destruct (is_empty data); [apply Hsame|].
    destruct (Product_get_Some _ _ _ Hp0) as [_ Hid0].
    assert (∀ r, r ∈ products s → Product_id r = i → r = p0) as Hrows
      by (intros r; by apply rows_with_key).
    destruct (data !! "quantity") as [q|].
    + destruct (update_quantity _ q s) as [[p1 s1]|e] eqn:Hu; [|apply Hsame].
      apply update_quantity_row_keys in Hu as (-> & Hk1 & Hrows1).
      2:{ intros r Hr Hid. cbn [Product_id App.assign_fields] in Hid.
          rewrite (Hrows r Hr) by congruence. done. }
      destruct (Product_save _ s1) as [s2|e] eqn:Hs; [|by apply Hkeep].
      apply Product_save_row_keys in Hs.
      2:{ intros r Hr Hid. by rewrite (Hrows1 r Hr Hid). }
      destruct (App.product_to_dict _); apply Hkeep; congruence.
    + destruct (Product_save _ s) as [s2|e] eqn:Hs; [|apply Hsame].
      apply Product_save_row_keys in Hs.
      2:{ intros r Hr Hid. cbn [Product_id App.assign_fields] in Hid.
          rewrite (Hrows r Hr) by congruence. done. }
      destruct (App.product_to_dict _); by apply Hkeep.
  - destruct (Product_get i s) as [p0|] eqn:Hp0; [|apply Hsame].
    destruct (_ || _); [apply Hsame|].
    destruct (Product_get_Some _ _ _ Hp0) as [_ Hid0].
    destruct (update_quantity p0 _ s) as [[p1 s1]|e] eqn:Hu; [|apply Hsame].
    apply update_quantity_row_keys in Hu as (-> & Hk1 & _).
    2:{ intros r Hr Hid.
        by rewrite (rows_with_key s i p0 r Hok Hp0 Hr) by congruence. }
    destruct (App.product_to_dict _); by apply Hkeep.
  - destruct (App.products_list _); apply Hsame.
  - destruct (Product_get i s) as [p0|]; [|apply Hsame].
    destruct (App.product_to_dict p0); apply Hsame.
  - destruct (Product_get i s) as [p0|] eqn:Hp0; [|apply Hsame].
    destruct (Product_get_Some _ _ _ Hp0) as [_ Hid0].
    destruct (Product_save _ s) as [s2|e] eqn:Hs; [|apply Hsame].
    apply Product_save_row_keys in Hs; [by apply Hkeep|].
    intros r Hr Hid. cbn [Product_id with_is_active] in Hid.
    by rewrite (rows_with_key s i p0 r Hok Hp0 Hr) by congruence.
Qed.

(** X8.  [PUT /products/<id>] with a quantity below zero answers 400 and
    stores nothing, whatever other fields the body assigns. *)
Theorem update_product_negative_quantity (t : token) (id : Z)
    (data : gmap string json) (s : Store) (p : Product) (q : json) :
  Product_get id s = Some p → data !! "quantity" = Some q →
  negative_number q = true →
  App.update_product (Valid t) id data s
  = ((App.Msg (Lit "Quantity cannot be negative"), 400), s).
Proof.
  intros Hp Hq Hneg. unfold App.update_product, App.jwt_required.
  rewrite Hp, (is_empty_false _ _ _ Hq), Hq.
  by rewrite (update_quantity_negative _ _ _ Hneg).
Qed.

Lemma find_None_intro {A} (f : A → bool) (l : list A) :
  (∀ x, In x l → f x = false) → find f l = None.
Proof.
  induction l as [|a l IH]; [done|]. intros Hl. simpl.
  rewrite (Hl a) by (by left). apply IH. intros x Hx. apply Hl. by right.
Qed.

Lemma filter_active_replaced (i : Z) (p' : Product) (l : list Product) :
  Product_is_active p' = false →
  filter (fun r => Product_is_active r = true) (map (replace_row i p') l)
  = filter (fun r => Product_id r ≠ i)
      (filter (fun r => Product_is_active r = true) l).
Proof.
  intros Hact. induction l as [|a l IH]; [done|]. cbn [map].
  rewrite !filter_cons, IH.
  destruct (Product_id a =? i) eqn:Hi.
  - assert (replace_row i p' a = p') as -> by (unfold replace_row; by rewrite Hi).
    rewrite decide_False by congruence.
    destruct (decide (Product_is_active a = true)); [|done].
    rewrite filter_cons. rewrite decide_False; [done|]. intros Hne. lia.
  - assert (replace_row i p' a = a) as -> by (unfold replace_row; by rewrite Hi).
    destruct (decide (Product_is_active a = true)); [|done].
    rewrite filter_cons. rewrite decide_True; [done|]. lia.
Qed.

(** X9.  After a soft delete in a store that satisfies the declared
    constraints, the product is gone from the list of active products,
    from [get_all_products], from [get_product_by_id] and from
    [find_by_sku]; the other active products are listed as before. *)
Theorem delete_product_hides (t : token) (id : Z) (s : Store) (p : Product) :
  store_ok s → Product_get id s = Some p →
  let s' := (App.delete_product (Valid t) id s).2 in
  all_active s' = filter (fun r => Product_id r ≠ id) (all_active s)
  ∧ ProductService.get_all_products None s'
    = (filter (fun r => Product_id r ≠ id) (all_active s),
       Z.of_nat (length (filter (fun r => Product_id r ≠ id) (all_active s))))
  ∧ ProductService.get_product_by_id id s' = None
  ∧ find_by_sku (Product_sku p) s' = None.
Proof.
  intros Hok Hp s'.
  destruct (Product_get_Some _ _ _ Hp) as [Hin Hid].
  assert (row_ok p) as Hrow.
  { destruct Hok as [Hrows _]. by eapply Forall_forall in Hrows. }
  assert (s' = set_products
                 (map (replace_row id (with_is_active false p)) (products s)) s)
    as ->.
  { subst s'. unfold App.delete_product, App.jwt_required. rewrite Hp.
    rewrite (Product_save_ok p (with_is_active false p) s Hok Hin) by done.
    cbn [snd Product_id with_is_active]. by rewrite Hid. }
  assert (all_active
            (set_products
               (map (replace_row id (with_is_active false p)) (products s)) s)
          = filter (fun r => Product_id r ≠ id) (all_active s)) as Hall.
  { unfold all_active. cbn [products set_products].
    by apply filter_active_replaced. }
  split; [exact Hall|]. split.
  { unfold ProductService.get_all_products. by rewrite Hall. }
  split.
  - unfold ProductService.get_product_by_id. cbn [products set_products].
    apply find_None_intro. intros r (r0 & <- & Hr0)%in_map_iff.
    unfold replace_row. destruct (Product_id r0 =? id) eqn:Hi.
    + cbn. apply andb_false_r.
    + by rewrite Hi.
  - unfold find_by_sku. cbn [products set_products].
    apply find_None_intro. intros r (r0 & <- & Hr0)%in_map_iff.
    unfold replace_row. destruct (Product_id r0 =? id) eqn:Hi.
    + cbn. apply andb_false_r.
    + apply andb_false_intro1, not_true_is_false. intros Heq.
      destruct Hok as (_ & _ & Hskus).
      apply list_elem_of_In in Hr0. specialize (Hskus r0 p Hr0 Hin Heq). lia.
Qed.

(** X10.  The sku of a product stays taken after its soft delete: a
    create call with that sku fails and stores nothing. *)
Theorem create_product_after_delete (t : token) (id : Z) (s : Store)
    (p : Product) (k : string) (data : gmap string json)
    (created_by : option Z) :
  Product_get id s = Some p → Product_sku p = JStr k →
  data !! "sku" = Some (JStr k) →
  let s' := (App.delete_product (Valid t) id s).2 in
  sku_taken (JStr k) s' = true
  ∧ (ProductService.create_product data created_by s').1.1.1 = false
  ∧ (ProductService.create_product data created_by s').2 = s'.
Proof.
  intros Hp Hk Hsku s'.
  destruct (Product_get_Some _ _ _ Hp) as [Hin Hid].
  assert (sku_taken (JStr k) s' = true) as Htaken.
  { subst s'. unfold App.delete_product, App.jwt_required. rewrite Hp.
    unfold sku_taken. apply existsb_exists.
    destruct (Product_save _ s) as [s2|e] eqn:Hs; cbn [snd].
    - apply Product_save_eq in Hs as ->. cbn [products set_products].
      exists (with_is_active false p). split.
      + apply in_map_iff. exists p. split; [|by apply list_elem_of_In].
        unfold replace_row. cbn [Product_id with_is_active].
        by rewrite Z.eqb_refl.
      + cbn [Product_sku with_is_active]. rewrite Hk. apply sql_eq_str_refl.
    - exists p. split; [by apply list_elem_of_In|].
      rewrite Hk. apply sql_eq_str_refl. }
  split; [done|].
  pose proof (create_product_taken data created_by s' _ Hsku Htaken) as Hno.
  split; [done|]. by apply create_product_failed_store.
Qed.

(** X11.  Every product view keeps the constraints declared on
    [products] (filled required columns, unique id, unique sku) and leaves
    the table of users as it was, for any request and any token. *)
Theorem handle_keeps_constraints (b : bearer) (r : App.product_request)
    (s : Store) :
  store_ok s →
  store_ok (App.handle b r s).2 ∧ users (App.handle b r s).2 = users s.
Proof.
  intros Hok. split; [by apply handle_keeps_ok|].
  destruct b as [| |t|t]; try by destruct r.
  pose proof (handle_ignores_users t r (users s) s) as Hi.
  replace (set_users (users s) s) with s in Hi by (by destruct s).
  by rewrite Hi.
Qed.


End MoreViews.

Section MoreViewsExamples.
Import Py Models Schema Jwt Examples Invariants MoreExamples.

Lemma handle_keeps_inactive_witness :
  ∃ p', Product_get 2
          (@App.handle toy_sql (Valid token_1)
             (App.UpdateQuantity 2 (<["quantity" := JInt 9]> ∅)) two_store).2
        = Some p'
        ∧ Product_is_active p' = false.
Proof.
  apply (@handle_keeps_inactive toy_sql (Valid token_1)
           (App.UpdateQuantity 2 (<["quantity" := JInt 9]> ∅)) two_store 2
           gadget_row); reflexivity.
Defined.

Lemma handle_keeps_row_keys_witness :
  ∃ l, map row_key
         (products (@App.handle toy_sql (Valid token_1)
                      (App.DeleteProduct 1) two_store).2)
       = (map row_key (products two_store) ++ l)%list
       ∧ l = [].
Proof.
  apply (@handle_keeps_row_keys toy_sql (Valid token_1) (App.DeleteProduct 1)
           two_store).
  split; [|split].
  - repeat constructor.
  - cbn. repeat constructor; [|by intros ?%elem_of_nil].
    intros [?|[]%elem_of_nil]%elem_of_cons. done.
  - intros p q Hp Hq Heq. cbn in Hp, Hq. in_list; done.
Defined.

Lemma update_product_negative_quantity_witness :
  App.update_product (Valid token_1) 1
    (<["name" := JStr "Renamed"]> (<["quantity" := JInt (-3)]> ∅))
    (widget_store true)
  = ((App.Msg (Lit "Quantity cannot be negative"), 400), widget_store true).
Proof.
  apply (update_product_negative_quantity token_1 1
           (<["name" := JStr "Renamed"]> (<["quantity" := JInt (-3)]> ∅))
           (widget_store true) (widget_row true) (JInt (-3)));
    reflexivity.
Defined.

Lemma delete_product_hides_witness :
  let s' := (App.delete_product (Valid token_1) 1 (widget_store true)).2 in
  all_active s'
  = filter (fun r => Product_id r ≠ 1) (all_active (widget_store true))
  ∧ @ProductService.get_all_products toy_sql None s'
    = (filter (fun r => Product_id r ≠ 1) (all_active (widget_store true)),
       Z.of_nat (length (filter (fun r => Product_id r ≠ 1)
                           (all_active (widget_store true)))))
  ∧ ProductService.get_product_by_id 1 s' = None
  ∧ find_by_sku (Product_sku (widget_row true)) s' = None.
Proof.
  apply (@delete_product_hides toy_sql token_1 1 (widget_store true)
           (widget_row true) widget_store_ok).
  reflexivity.
Defined.

Lemma create_product_after_delete_witness :
  let s' := (App.delete_product (Valid token_1) 1 (widget_store true)).2 in
  sku_taken (JStr "SKU-100") s' = true
  ∧ (ProductService.create_product widget None s').1.1.1 = false
  ∧ (ProductService.create_product widget None s').2 = s'.
Proof.
  apply (create_product_after_delete token_1 1 (widget_store true)
           (widget_row true) "SKU-100" widget None); reflexivity.
Defined.

Lemma handle_keeps_constraints_witness :
  store_ok (@App.handle toy_sql (Valid token_1)
              (App.AddProduct (<["sku" := JStr "SKU-200"]> widget))
              (widget_store true)).2
  ∧ users (@App.handle toy_sql (Valid token_1)
             (App.AddProduct (<["sku" := JStr "SKU-200"]> widget))
             (widget_store true)).2
    = users (widget_store true).
Proof.
  apply (@handle_keeps_constraints toy_sql (Valid token_1)
           (App.AddProduct (<["sku" := JStr "SKU-200"]> widget))
           (widget_store true) widget_store_ok).
Defined.

End MoreViewsExamples.

(* ===================================================================== *)
(** * Further properties: accounts                                       *)
(* ===================================================================== *)

Section MoreAuth.
Import Py PyMore Models Schema Jwt Examples Invariants MoreExamples.
Context `{Werkzeug}.

(** X13.  For a username and a password that are strings and an email
    that is absent or a string, [validate_user_data] returns without
    raising, and returns no error exactly when the username has at least 3
    characters, the password at least 6, and the email is empty or
    contains "@".  Nothing is stripped: only the lengths count. *)
Theorem validate_user_data_accepts (data : gmap string json)
    (u p : string) (e : option string) :
  data !! "username" = Some (JStr u) → data !! "password" = Some (JStr p) →
  data !! "email" = JStr <$> e →
  ∃ errs,
    AuthValidation.validate_user_data data = Ok (bool_decide (errs = []), errs)
    ∧ (errs = []
       ↔ 3 <= len u ∧ 6 <= len p
         ∧ match e with
           | Some e => e = "" ∨ str_in "@" e = true
           | None => True
           end).
Proof.
  intros Hu Hp He. unfold AuthValidation.validate_user_data.
  rewrite (is_empty_false _ _ _ Hu).
  rewrite (get_Some _ _ _ Hu), (get_Some _ _ _ Hp).
  assert (get data "email" = from_option JStr JNull e) as ->.
  { unfold get. rewrite He. by destruct e. }
  cbn [truthy from_option len_json in_json].
  destruct (String.eqb u "") eqn:Eu, (String.eqb p "") eqn:Ep;
    (destruct e as [e|];
     [destruct (String.eqb e "") eqn:Ee; [|destruct (str_in "@" e) eqn:Hat]|]);
    cbn [negb mbind result_bind app truthy from_option];
    rewrite ?Ee; cbn [negb mbind result_bind app in_json];
    rewrite ?Hat; cbn [negb mbind result_bind app];
    destruct (len u <? 3) eqn:H3, (len p <? 6) eqn:H6;
    (eexists; split; [reflexivity|]);
    repeat match goal with
           | E : String.eqb _ _ = true |- _ => apply String.eqb_eq in E
           | E : String.eqb _ _ = false |- _ => apply String.eqb_neq in E
           end;
    subst; unfold len in *; cbn [String.length] in *;
    (split;
     [intros Hnil; try discriminate; repeat split; try lia; tauto
     |intros (Hu3 & Hp6 & Hem); try reflexivity; exfalso; try lia;
      try (destruct Hem; congruence)]).
Qed.

Lemma user_next_id_fresh (s : Store) :
  find (fun r => User_id r =? next_id (map User_id (users s))) (users s) = None.
Proof.
  apply find_None_intro. intros u Hu%list_elem_of_In.
  assert (User_id u < next_id (map User_id (users s)))
    by (by apply next_id_above, list_elem_of_fmap_2).
  lia.
Qed.

(** The row [register_user] inserts. *)
Lemma register_user_success (username password email : json) (s s' : Store)
    (m : text) (user : User) :
  AuthService.register_user username password email s
  = ((true, m, Some user), s') →
  ∃ p, password = JStr p
       ∧ User_find_by_username username s = None
       ∧ user = {| User_id := next_id (map User_id (users s));
                   User_username := username;
                   User_password_hash := generate_password_hash p;
                   User_email := email; User_is_active := true |}
       ∧ s' = set_users (users s ++ [user]) s.
Proof.
  unfold AuthService.register_user.
  destruct (User_find_by_username username s) eqn:Hfind; [done|].
  unfold User__init__, set_password.
  destruct password as [| | | |p| |]; cbn [mbind result_bind raise]; try done.
  unfold User_save_new. cbn [nu_username nu_email nu_password_hash].
  destruct (is_null username); [done|].
  destruct (existsb _ _); [done|]. destruct (existsb _ _); [done|].
  cbn [mbind result_bind]. intros [= <- <- <-]. by exists p.
Qed.

(** X14.  An account registered through [register_user] with a string
    username can log in with the same password, provided the hash of a
    password verifies against that password: [authenticate_user] returns
    the account with a token for its id, and [get_current_user] resolves
    that token to the account. *)
Theorem register_then_authenticate (u p : string) (email : json)
    (s s' : Store) (m : text) (user : User) :
  check_password_hash (generate_password_hash p) p = true →
  AuthService.register_user (JStr u) (JStr p) email s
  = ((true, m, Some user), s') →
  let t := create_access_token (str_of_int (User_id user)) in
  AuthService.authenticate_user (JStr u) (JStr p) s'
  = (true, Lit "Login successful", Some t, Some user)
  ∧ AuthService.get_current_user (Valid t) s' = Some user.
Proof.
  intros Hhash Hreg t.
  destruct (register_user_success _ _ _ _ _ _ _ Hreg)
    as (p' & [= <-] & Hfind & Huser & ->).
  split.
  - unfold AuthService.authenticate_user, User_find_by_username.
    cbn [users set_users]. rewrite (find_app_None _ _ _ Hfind).
    assert (sql_eq (User_username user) (JStr u) = true) as ->
      by (rewrite Huser; apply sql_eq_str_refl).
    assert (User_is_active user = true) as -> by (by rewrite Huser).
    cbn [negb]. unfold check_password.
    assert (User_password_hash user = generate_password_hash p) as ->
      by (by rewrite Huser).
    by rewrite Hhash.
  - subst t. rewrite get_current_user_of_token. unfold User_find_by_id.
    cbn [users set_users].
    assert (User_id user = next_id (map User_id (users s))) as Hid
      by (by rewrite Huser).
    rewrite Hid, (find_app_None _ _ _ (user_next_id_fresh s)).
    by rewrite <- Hid, Z.eqb_refl.
Qed.

(** X15.  [authenticate_user] succeeds only for an existing, active
    account whose stored hash verifies the password; it then returns
    that account and a token whose identity is the decimal form of the
    account's id, which [get_current_user] resolves by that id. *)
Theorem authenticate_user_sound (username password : json) (s : Store)
    (m : text) (tok : option token) (usr : option User) :
  AuthService.authenticate_user username password s = (true, m, tok, usr) →
  ∃ u, User_find_by_username username s = Some u
       ∧ User_is_active u = true
       ∧ check_password u password = Ok true
       ∧ usr = Some u
       ∧ tok = Some (create_access_token (str_of_int (User_id u)))
       ∧ AuthService.get_current_user
           (Valid (create_access_token (str_of_int (User_id u)))) s
         = User_find_by_id (User_id u) s.
Proof.
  unfold AuthService.authenticate_user.
  destruct (User_find_by_username username s) as [u|]; [|done].
  destruct (User_is_active u) eqn:Hact; cbn [negb]; [|done].
  destruct (check_password u password) as [[]|e] eqn:Hpw;
    cbn [mbind result_bind negb]; try done.
  intros [= <- <- <-]. exists u. repeat (split; [done|]).
  apply get_current_user_of_token.
Qed.

(** X16.  [POST /login] of [app.py] and of the API blueprint accept the
    same requests and hand out the same token. *)
Theorem login_views_agree (data : gmap string json) (s : Store) (t : token) :
  (∃ d, App.login data s = (App.AccessToken t d, 200))
  ↔ Api.login data s = (Api.AccessToken (Some t), 200).
Proof.
  unfold App.login, Api.login, AuthService.authenticate_user.
  destruct (_ || _); [by split; [intros [d ?]|]|].
  destruct (User_find_by_username _ s) as [u|]; [|by split; [intros [d ?]|]].
  destruct (check_password u _) as [[]|e] eqn:Hpw.
  - destruct (User_is_active u); cbn [negb mbind result_bind].
    + split.
      * by intros [d [= <- _]].
      * intros [= <-]. by eexists.
    + by split; [intros [d ?]|].
  - destruct (User_is_active u); cbn [negb mbind result_bind];
      by split; [intros [d ?]|].
  - destruct (User_is_active u); cbn [negb mbind result_bind];
      by split; [intros [d ?]|].
Qed.


(** INSERT keeps the constraints on [users]. *)
Lemma User_save_new_ok (nu : NewUser) (s s' : Store) (row : User) :
  users_ok s → User_save_new nu s = Ok (row, s') → users_ok s'.
Proof.
  intros (Hkeys & Huniq). unfold User_save_new.
  destruct (is_null (nu_username nu)); [done|].
  destruct (existsb (fun r => sql_eq (User_username r) _) _) eqn:Hname; [done|].
  destruct (existsb (fun r => sql_eq (User_email r) _) _) eqn:Hmail; [done|].
  intros [= <- <-].
  assert (∀ r, r ∈ users s →
               sql_eq (User_username r) (nu_username nu) = false
               ∧ sql_eq (User_email r) (nu_email nu) = false) as Hfresh.
  { intros r Hr%list_elem_of_In. split; apply not_true_is_false; intros Heq.
    - apply not_true_iff_false in Hname. apply Hname, existsb_exists. eauto.
    - apply not_true_iff_false in Hmail. apply Hmail, existsb_exists. eauto. }
  split; cbn [users set_users].
  - rewrite map_app. apply NoDup_app. split; [done|]. split.
    + intros i Hi Hin. apply next_id_above in Hi. cbn in Hin.
      apply list_elem_of_singleton in Hin. lia.
    + apply NoDup_singleton.
  - intros u v [Hu|Hu%list_elem_of_singleton]%elem_of_app
      [Hv|Hv%list_elem_of_singleton]%elem_of_app Heq; subst.
    + by apply Huniq.
    + cbn [User_username User_email] in Heq.
      destruct (Hfresh u Hu) as [E1 E2]. rewrite E1, E2 in Heq.
      by destruct Heq.
    + cbn [User_username User_email] in Heq.
      rewrite (sql_eq_sym (nu_username nu)), (sql_eq_sym (nu_email nu)) in Heq.
      destruct (Hfresh v Hv) as [E1 E2]. rewrite E1, E2 in Heq.
      by destruct Heq.
    + done.
Qed.

Lemma elem_of_replaced_user (i : Z) (u' r : User) (l : list User) :
  r ∈ map (Profile.replace_user i u') l →
  (r ∈ l ∧ User_id r ≠ i) ∨ (r = u' ∧ ∃ r0, r0 ∈ l ∧ User_id r0 = i).
Proof.
  intros (r0 & -> & Hr0)%list_elem_of_fmap. unfold Profile.replace_user.
  destruct (User_id r0 =? i) eqn:Hi.
  - right. split; [done|]. exists r0. split; [done|lia].
  - left. split; [done|lia].
Qed.

(** UPDATE keeps the constraints on [users]. *)
Lemma User_save_keeps_ok (u : User) (s s' : Store) :
  users_ok s → Profile.User_save u s = Ok s' → users_ok s'.
Proof.
  intros (Hkeys & Huniq). unfold Profile.User_save.
  destruct (is_null _); [done|].
  destruct (existsb _ _) eqn:Hex; [done|]. intros [= <-].
  assert (∀ r, r ∈ users s → User_id r ≠ User_id u →
               sql_eq (User_username r) (User_username u) = false
               ∧ sql_eq (User_email r) (User_email u) = false) as Hfresh.
  { intros r Hr Hne. apply not_true_iff_false in Hex.
    apply orb_false_elim, not_true_is_false. intros Heq. apply Hex.
    apply existsb_exists. exists r. split; [by apply list_elem_of_In|].
    apply andb_true_intro. split; [|done]. apply negb_true_iff, Z.eqb_neq.
    done. }
  split; cbn [users set_users].
  - rewrite map_map. erewrite map_ext; [exact Hkeys|]. intros r. cbn.
    unfold Profile.replace_user.
    destruct (User_id r =? User_id u) eqn:Hi; [lia|done].
  - intros a b [[Ha Hna]|[-> _]]%elem_of_replaced_user
      [[Hb Hnb]|[-> _]]%elem_of_replaced_user Heq.
    + by apply Huniq.
    + destruct (Hfresh a Ha Hna) as [E1 E2]. rewrite E1, E2 in Heq.
      by destruct Heq.
    + rewrite (sql_eq_sym (User_username u)), (sql_eq_sym (User_email u)) in Heq.
      destruct (Hfresh b Hb Hnb) as [E1 E2]. rewrite E1, E2 in Heq.
      by destruct Heq.
    + done.
Qed.

(** X18.  The constraints declared on [users] (unique id, username and
    email) are kept by both registration paths and by [PUT /profile]. *)
Theorem users_ok_kept (b : bearer) (data : gmap string json)
    (username password email : json) (s : Store) :
  users_ok s →
  users_ok (App.register data s).2
  ∧ users_ok (AuthService.register_user username password email s).2
  ∧ users_ok (Profile.update_user_profile b data s).2.
Proof.
  intros Hok. split; [|split].
  - unfold App.register. destruct (_ || _); [done|].
    destruct (User_find_by_username _ s); [done|].
    destruct (_ && _); [done|].
    destruct (User__init__ _ _ _) as [nu|e]; cbn [mbind result_bind]; [|done].
    destruct (User_save_new nu s) as [[row s']|e] eqn:Hs; [|done].
    by eapply User_save_new_ok.
  - unfold AuthService.register_user.
    destruct (User_find_by_username username s); [done|].
    destruct (User__init__ _ _ _) as [nu|e]; cbn [mbind result_bind]; [|done].
    destruct (User_save_new nu s) as [[row s']|e] eqn:Hs;
      cbn [mbind result_bind]; [|done].
    by eapply User_save_new_ok.
  - unfold Profile.update_user_profile. destruct b as [| |t|t]; try done.
    destruct (int_of_str (sub t)); [|done].
    destruct (User_find_by_id _ s) as [user|]; [|done].
    destruct (is_empty data); [done|].
    destruct (Profile.assign_email data user s) as [user1|]; [|done].
    destruct (Profile.assign_password data user1) as [user2|e];
      cbn [mbind result_bind]; [|done].
    destruct (Profile.User_save user2 s) as [s'|e] eqn:Hs;
      cbn [mbind result_bind]; [|done].
    by eapply User_save_keeps_ok.
Qed.

Lemma User_find_by_id_Some (n : Z) (s : Store) (u : User) :
  User_find_by_id n s = Some u → u ∈ users s ∧ User_id u = n.
Proof.
  unfold User_find_by_id. intros Hu. destruct (find_some _ _ Hu) as [Hin Hid].
  split; [by apply list_elem_of_In|lia].
Qed.

(** X19.  [PUT /profile] with an email held by another account answers
    409 and stores nothing, in a store that satisfies the constraints. *)
Theorem update_user_profile_email_conflict (t : token) (n : Z)
    (data : gmap string json) (s : Store) (user other : User) (e : string) :
  users_ok s → int_of_str (sub t) = Some n → User_find_by_id n s = Some user →
  data !! "email" = Some (JStr e) → e ≠ "" →
  User_find_by_email (JStr e) s = Some other → User_id other ≠ User_id user →
  Profile.update_user_profile (Valid t) data s
  = ((Profile.Msg (Lit "Email already registered"), 409), s).
Proof.
  intros (_ & Huniq) Hn Huser He Hne Hother Hdiff.
  unfold Profile.update_user_profile. rewrite Hn, Huser.
  rewrite (is_empty_false _ _ _ He). unfold Profile.assign_email. rewrite He.
  assert (truthy (JStr e) = true) as ->.
  { cbn. apply negb_true_iff, String.eqb_neq. done. }
  assert (eq (JStr e) (User_email user) = false) as ->.
  { apply not_true_is_false. intros Heq.
    destruct (User_email user) as [| | | |e'| |] eqn:Hmail; try done.
    cbn in Heq. apply String.eqb_eq in Heq as <-.
    destruct (find_some _ _ Hother) as [Hin Hsame].
    destruct (User_find_by_id_Some _ _ _ Huser) as [Hin' _].
    apply list_elem_of_In in Hin. apply Hdiff, Huniq; [done..|].
    right. by rewrite Hmail. }
  cbn [negb andb]. rewrite Hother.
  assert ((User_id other =? User_id user) = false) as -> by lia. done.
Qed.

Lemma map_replace_user_id (s : Store) (n : Z) (user : User) :
  users_ok s → User_find_by_id n s = Some user →
  map (Profile.replace_user n user) (users s) = users s.
Proof.
  intros (Hkeys & _) [Hin Hid]%User_find_by_id_Some.
  rewrite <- (map_id (users s)) at 2. apply map_ext_in.
  intros r Hr%list_elem_of_In. unfold Profile.replace_user.
  destruct (User_id r =? n) eqn:Hi; [|done].
  apply (NoDup_map_inj User_id (users s)); [done..|lia].
Qed.

Lemma User_save_ok (user u' : User) (s : Store) :
  users_ok s → user ∈ users s → User_id u' = User_id user →
  User_username u' = User_username user → User_email u' = User_email user →
  is_null (User_username user) = false →
  Profile.User_save u' s
  = Ok (set_users (map (Profile.replace_user (User_id u') u') (users s)) s).
Proof.
  intros (_ & Huniq) Hin Hid Hname Hmail Hnull. unfold Profile.User_save.
  rewrite Hname, Hnull, Hmail.
  assert (existsb (fun r => negb (User_id r =? User_id u')
                            && (sql_eq (User_username r) (User_username user)
                                || sql_eq (User_email r) (User_email user)))
                  (users s) = false) as ->; [|done].
  apply not_true_is_false.
  intros (r & Hr & [Hne Heq]%andb_prop)%existsb_exists.
  apply list_elem_of_In in Hr. apply orb_prop in Heq.
  pose proof (Huniq r user Hr Hin Heq) as Hsame.
  apply negb_true_iff, Z.eqb_neq in Hne. congruence.
Qed.

(** X20.  [PUT /profile] that sends the account's own email again is not
    a conflict: it answers 200 and the store is the same. *)
Theorem update_user_profile_own_email (t : token) (n : Z) (s : Store)
    (user : User) (e : string) :
  users_ok s → int_of_str (sub t) = Some n → User_find_by_id n s = Some user →
  User_email user = JStr e → is_null (User_username user) = false →
  Profile.update_user_profile (Valid t) (<["email" := JStr e]> ∅) s
  = ((Profile.ProfileUpdated (App.user_to_dict user s), 200), s).
Proof.
  intros Hok Hn Huser Hmail Hnull.
  unfold Profile.update_user_profile. rewrite Hn, Huser.
  rewrite (is_empty_false _ "email" (JStr e)) by apply lookup_insert_eq.
  unfold Profile.assign_email. rewrite lookup_insert_eq, Hmail.
  assert (eq (JStr e) (JStr e) = true) as -> by apply String.eqb_refl.
  rewrite andb_false_r. unfold Profile.assign_password.
  rewrite (contains_false _ "password") by (by rewrite lookup_insert_ne).
  cbn [andb mbind result_bind].
  destruct (User_find_by_id_Some _ _ _ Huser) as [Hin Hid].
  rewrite (User_save_ok user user s Hok Hin) by done.
  rewrite Hid, (map_replace_user_id s n user Hok Huser).
  by destruct s.
Qed.

Lemma find_map_replace_user (f : User → bool) (i : Z) (u u' : User)
    (l : list User) :
  NoDup (map User_id l) → u ∈ l → User_id u = i → f u' = f u →
  find f (map (Profile.replace_user i u') l)
  = Profile.replace_user i u' <$> find f l.
Proof.
  intros Hnd Hin Hid Hf.
  assert (∀ r, r ∈ l → f (Profile.replace_user i u' r) = f r) as Hsame.
  { intros r Hr. unfold Profile.replace_user.
    destruct (User_id r =? i) eqn:Hi; [|done].
    rewrite Hf. f_equal. symmetry.
    apply (NoDup_map_inj User_id l); [done..|lia]. }
  clear Hnd Hin Hf. induction l as [|a l IH]; [done|]. cbn [map find].
  rewrite (Hsame a) by apply list_elem_of_here.
  destruct (f a); [done|]. apply IH. intros r Hr. apply Hsame.
  by apply list_elem_of_further.
Qed.

(** X21.  After [PUT /profile] changes the password of an active account,
    [authenticate_user] accepts the new password, provided the hash of a
    password verifies against that password. *)
Theorem update_password_then_authenticate (t : token) (n : Z) (s : Store)
    (user : User) (name p : string) :
  check_password_hash (generate_password_hash p) p = true →
  users_ok s → int_of_str (sub t) = Some n → User_find_by_id n s = Some user →
  User_find_by_username (JStr name) s = Some user →
  User_is_active user = true → p ≠ "" →
  let r := Profile.update_user_profile (Valid t) (<["password" := JStr p]> ∅) s in
  r.1.2 = 200
  ∧ ∃ user', User_password_hash user' = generate_password_hash p
             ∧ User_id user' = User_id user
             ∧ AuthService.authenticate_user (JStr name) (JStr p) r.2
               = (true, Lit "Login successful",
                  Some (create_access_token (str_of_int (User_id user))),
                  Some user').
Proof.
  intros Hhash Hok Hn Huser Hname Hact Hp r.
  destruct (User_find_by_id_Some _ _ _ Huser) as [Hin Hid].
  assert (sql_eq (User_username user) (JStr name) = true) as Hsql
    by (by destruct (find_some _ _ Hname)).
  assert (is_null (User_username user) = false) as Hnull
    by (by destruct (User_username user)).
  set (user' := Profile.with_password_hash (generate_password_hash p) user).
  assert (r = ((Profile.ProfileUpdated
                  (App.user_to_dict user'
                     (set_users (map (Profile.replace_user n user') (users s)) s)),
                200),
               set_users (map (Profile.replace_user n user') (users s)) s))
    as ->.
  { subst r. unfold Profile.update_user_profile. rewrite Hn, Huser.
    rewrite (is_empty_false _ "password" (JStr p)) by apply lookup_insert_eq.
    unfold Profile.assign_email.
    rewrite lookup_insert_ne by done. rewrite lookup_empty.
    unfold Profile.assign_password.
    rewrite (contains_true _ "password" (JStr p)) by apply lookup_insert_eq.
    rewrite (get_Some _ "password" (JStr p)) by apply lookup_insert_eq.
    assert (truthy (JStr p) = true) as ->.
    { cbn. by apply negb_true_iff, String.eqb_neq. }
    cbn [andb set_password mbind result_bind]. fold user'.
    rewrite (User_save_ok user user' s Hok Hin) by done.
    cbn [mbind result_bind]. subst user'.
    cbn [User_id Profile.with_password_hash]. by rewrite Hid. }
  split; [done|]. exists user'. split; [done|]. split; [done|].
  cbn [snd]. unfold AuthService.authenticate_user, User_find_by_username.
  cbn [users set_users].
  rewrite (find_map_replace_user _ n user user') by (done || apply Hok).
  fold (User_find_by_username (JStr name) s). rewrite Hname. cbn.
  unfold Profile.replace_user. rewrite Hid, Z.eqb_refl.
  subst user'. cbn [User_is_active Profile.with_password_hash]. rewrite Hact.
  cbn [negb]. unfold check_password.
  cbn [User_password_hash Profile.with_password_hash]. rewrite Hhash.
  cbn [mbind result_bind negb User_id Profile.with_password_hash].
  by rewrite Hid.
Qed.

End MoreAuth.

Section MoreAuthExamples.
Import Py PyMore Models Schema Jwt Examples Invariants MoreExamples.

Lemma two_users_ok : users_ok two_users.
Proof.
  split.
  - cbn. repeat constructor; [|by intros ?%elem_of_nil].
    intros [?|[]%elem_of_nil]%elem_of_cons. done.
  - intros u v Hu Hv Heq. cbn in Hu, Hv. in_list; try done;
      cbn in Heq; by destruct Heq.
Qed.

Lemma validate_user_data_accepts_witness :
  ∃ errs,
    AuthValidation.validate_user_data
      (<["email" := JStr "alice@example.org"]> (credentials "alice" "secret1"))
    = Ok (bool_decide (errs = []), errs)
    ∧ (errs = []
       ↔ 3 <= len "alice" ∧ 6 <= len "secret1"
         ∧ ("alice@example.org" = "" ∨ str_in "@" "alice@example.org" = true)).
Proof.
  apply (validate_user_data_accepts
           (<["email" := JStr "alice@example.org"]>
              (credentials "alice" "secret1"))
           "alice" "secret1" (Some "alice@example.org")); reflexivity.
Defined.

Lemma register_then_authenticate_witness :
  let user := {| User_id := 2; User_username := JStr "alice";
                 User_password_hash := "h$secret1"; User_email := JNull;
                 User_is_active := true |} in
  let s' := {| users := [bob; user]; products := [] |} in
  let t := create_access_token (str_of_int 2) in
  @AuthService.authenticate_user toy_werkzeug (JStr "alice") (JStr "secret1") s'
  = (true, Lit "Login successful", Some t, Some user)
  ∧ AuthService.get_current_user (Valid t) s' = Some user.
Proof.
  intros user s'.
  apply (@register_then_authenticate toy_werkzeug "alice" "secret1" JNull
           bob_store s' (Lit "User created successfully") user); reflexivity.
Defined.

Lemma authenticate_user_sound_witness :
  ∃ u, User_find_by_username (JStr "bob") bob_store = Some u
       ∧ User_is_active u = true
       ∧ @check_password toy_werkzeug u (JStr "hunter22") = Ok true
       ∧ Some bob = Some u
       ∧ Some token_1 = Some (create_access_token (str_of_int (User_id u)))
       ∧ AuthService.get_current_user
           (Valid (create_access_token (str_of_int (User_id u)))) bob_store
         = User_find_by_id (User_id u) bob_store.
Proof.
  apply (@authenticate_user_sound toy_werkzeug (JStr "bob") (JStr "hunter22")
           bob_store (Lit "Login successful") (Some token_1) (Some bob)).
  reflexivity.
Defined.

Lemma users_ok_kept_witness :
  users_ok (@App.register toy_werkzeug (credentials "carol" "secret1")
              two_users).2
  ∧ users_ok (@AuthService.register_user toy_werkzeug (JStr "carol")
                (JStr "secret1") JNull two_users).2
  ∧ users_ok (@Profile.update_user_profile toy_werkzeug (Valid token_1)
                (credentials "carol" "secret1") two_users).2.
Proof.
  apply (@users_ok_kept toy_werkzeug (Valid token_1)
           (credentials "carol" "secret1") (JStr "carol") (JStr "secret1")
           JNull two_users two_users_ok).
Defined.

Lemma update_user_profile_email_conflict_witness :
  @Profile.update_user_profile toy_werkzeug
    (Valid (create_access_token (str_of_int 2)))
    (<["email" := JStr "bob@example.org"]> ∅) two_users
  = ((Profile.Msg (Lit "Email already registered"), 409), two_users).
Proof.
  apply (@update_user_profile_email_conflict toy_werkzeug
           (create_access_token (str_of_int 2)) 2
           (<["email" := JStr "bob@example.org"]> ∅) two_users alice bob
           "bob@example.org" two_users_ok); try reflexivity; done.
Defined.

Lemma update_user_profile_own_email_witness :
  @Profile.update_user_profile toy_werkzeug (Valid token_1)
    (<["email" := JStr "bob@example.org"]> ∅) two_users
  = ((Profile.ProfileUpdated (App.user_to_dict bob two_users), 200), two_users).
Proof.
  apply (@update_user_profile_own_email toy_werkzeug token_1 1 two_users bob
           "bob@example.org" two_users_ok); reflexivity.
Defined.

Lemma update_password_then_authenticate_witness :
  let r := @Profile.update_user_profile toy_werkzeug (Valid token_1)
             (<["password" := JStr "newpass1"]> ∅) two_users in
  r.1.2 = 200
  ∧ ∃ user', User_password_hash user'
             = @generate_password_hash toy_werkzeug "newpass1"
             ∧ User_id user' = User_id bob
             ∧ @AuthService.authenticate_user toy_werkzeug (JStr "bob")
                 (JStr "newpass1") r.2
               = (true, Lit "Login successful",
                  Some (create_access_token (str_of_int (User_id bob))),
                  Some user').
Proof.
  apply (@update_password_then_authenticate toy_werkzeug token_1 1 two_users
           bob "bob" "newpass1"); try reflexivity; try done.
  apply two_users_ok.
Defined.

End MoreAuthExamples.

(* ===================================================================== *)
(** * Further properties: the views of routes/api_routes.py              *)
(* ===================================================================== *)

Section MoreApi.
Import Py PyMore Models Schema Jwt Examples Invariants MoreExamples.
Context `{Werkzeug} `{Sql} `{Api.Texts}.














(** X25.  A username that is a non-zero number has no length: validation
    raises and [POST /register] of the API blueprint answers 500, not
    400, and stores nothing. *)
Theorem api_register_numeric_username (data : gmap string json) (s : Store)
    (z : Z) :
  data !! "username" = Some (JInt z) → z ≠ 0 →
  AuthValidation.validate_user_data data = Raise (Exn TypeError None)
  ∧ Api.register data s
    = ((Api.Msg (Fstr "Registration failed: " (Exn TypeError None)), 500), s).
Proof.
  intros Hu Hz.
  assert (AuthValidation.validate_user_data data = Raise (Exn TypeError None))
    as Hv.
  { unfold AuthValidation.validate_user_data.
    rewrite (is_empty_false _ _ _ Hu), (get_Some _ _ _ Hu). cbn [truthy].
    assert ((z =? 0) = false) as -> by lia. done. }
  split; [done|]. unfold Api.register. by rewrite Hv.
Qed.

(** What [products_list] returns when no serialization raises. *)
Lemma products_list_Ok (l : list Product) (ds : list json) :
  App.products_list l = Ok ds →
  Forall2 (fun p d => Product_to_dict p = Ok d) l ds.
Proof.
  revert ds. induction l as [|p l IH]; intros ds; cbn [App.products_list].
  - intros [= <-]. constructor.
  - unfold App.product_to_dict.
    destruct (Product_to_dict p) as [d|] eqn:Hd; cbn [mbind result_bind];
      [|done].
    destruct (App.products_list l) as [ds'|]; cbn [mbind result_bind];
      [|done].
    intros [= <-]. constructor; [done|by apply IH].
Qed.

(** X26.  [GET /products] of [app.py] and of the API blueprint list the
    same products, with or without a search term: only active rows of the
    table, each serialized by [to_dict]; when one serialization raises,
    both answer 500 and list nothing. *)
Theorem get_products_views_agree (t : token) (search : option string)
    (s : Store) :
  let found := (ProductService.get_all_products search s).1 in
  (∀ p, p ∈ found → p ∈ products s ∧ Product_is_active p = true)
  ∧ match App.products_list found with
    | Ok l =>
        App.get_products (Valid t) (default "" search) s
        = ((App.Data (JArr l), 200), s)
        ∧ Api.get_products search s = (Api.Data (JArr l), 200)
        ∧ Forall2 (fun p d => Product_to_dict p = Ok d) found l
    | Raise e =>
        App.get_products (Valid t) (default "" search) s
        = ((App.Msg (fstr "Error fetching products: " e), 500), s)
        ∧ Api.get_products search s
          = (Api.Msg (fstr "Failed to retrieve products: " e), 500)
    end.
Proof.
  intros found. split.
  - subst found. unfold ProductService.get_all_products. cbn [fst].
    intros p Hp.
    assert (p ∈ search_by_name (default "" search) s ∨ p ∈ all_active s)
      as [Hin|Hin].
    { destruct search as [term|]; [|by right]. cbn [default].
      destruct (negb (String.eqb term "")); [by left|by right]. }
    + apply list_elem_of_filter in Hin as [[_ ?] ?]. done.
    + apply list_elem_of_filter in Hin as [? ?]. done.
  - assert (App.get_products (Valid t) (default "" search) s
            = match App.products_list found with
              | Ok l => ((App.Data (JArr l), 200), s)
              | Raise e =>
                  ((App.Msg (fstr "Error fetching products: " e), 500), s)
              end) as ->.
    { subst found. unfold App.get_products, App.jwt_required,
        ProductService.get_all_products. cbn [fst].
      destruct search as [term|]; [done|]. done. }
    assert (Api.get_products search s
            = match App.products_list found with
              | Ok l => (Api.Data (JArr l), 200)
              | Raise e =>
                  (Api.Msg (fstr "Failed to retrieve products: " e), 500)
              end) as -> by done.
    destruct (App.products_list found) as [l|e] eqn:Hl; [|done].
    split; [done|]. split; [done|]. by apply products_list_Ok.
Qed.

End MoreApi.

Section MoreApiExamples.
Import Py PyMore Models Schema Jwt Examples Invariants MoreExamples.



Lemma api_register_numeric_username_witness :
  AuthValidation.validate_user_data
    (<["username" := JInt 123]> (credentials "x" "secret1"))
  = Raise (Exn TypeError None)
  ∧ @Api.register toy_werkzeug toy_texts
      (<["username" := JInt 123]> (credentials "x" "secret1")) bob_store
    = ((Api.Msg (Fstr "Registration failed: " (Exn TypeError None)), 500),
       bob_store).
Proof.
  apply (@api_register_numeric_username toy_werkzeug toy_texts
           (<["username" := JInt 123]> (credentials "x" "secret1")) bob_store
           123); [reflexivity|lia].
Defined.

End MoreApiExamples.

(* ===================================================================== *)
(** * Further properties: the configuration classes                      *)
(* ===================================================================== *)

Section MoreConfig.
Import Config.

Variable environ environ_now : gmap string string.

(** [config_mapping.get(name, DevelopmentConfig)], by name. *)
Lemma config_mapping_get (name : string) :
  default (DevelopmentConfig environ) (config_mapping environ !! name)
  = if bool_decide (name = "production") then ProductionConfig environ
    else if bool_decide (name = "testing") then TestingConfig environ
    else DevelopmentConfig environ.
Proof.
  unfold config_mapping.
  destruct (decide (name = "development")) as [->|Hd];
    [by rewrite lookup_insert_eq|rewrite lookup_insert_ne by done].
  destruct (decide (name = "production")) as [->|Hp];
    [by rewrite lookup_insert_eq|rewrite lookup_insert_ne by done].
  rewrite (bool_decide_eq_false_2 _ Hp).
  destruct (decide (name = "testing")) as [->|Ht];
    [by rewrite lookup_insert_eq|rewrite lookup_insert_ne by done].
  rewrite (bool_decide_eq_false_2 _ Ht).
  destruct (decide (name = "default")) as [->|Hf];
    [by rewrite lookup_insert_eq|by rewrite lookup_insert_ne by done].
Qed.

(** X27.  [get_config] never fails, and only the exact names "production" and
    "testing" leave the development settings: under every other name,
    a misspelt one included, debugging is on and access tokens do not
    expire.  The two secrets are those read when the module was imported,
    under every name, and are the fallback constants when the variables
    were not set. *)
Theorem get_config_settings (environment : option string) :
  let name := match environment with
              | Some e => e
              | None => default "default" (environ_now !! "FLASK_ENV")
              end in
  let c := get_config environ environ_now environment in
  (JWT_ACCESS_TOKEN_EXPIRES c
   = if bool_decide (name = "production") then After 3600 else Never)
  ∧ (DEBUG c
     = if bool_decide (name = "production") then Some false
       else if bool_decide (name = "testing") then None else Some true)
  ∧ (TESTING c = if bool_decide (name = "testing") then Some true else None)
  ∧ (SQLALCHEMY_DATABASE_URI c
     = Some (if bool_decide (name = "production")
             then default "sqlite:///inventory_prod.db" (environ !! "DATABASE_URL")
             else if bool_decide (name = "testing") then "sqlite:///:memory:"
             else "sqlite:///inventory_dev.db"))
  ∧ SECRET_KEY c
    = default "dev-flask-secret-key-fallback" (environ !! "SECRET_KEY")
  ∧ JWT_SECRET_KEY c
    = default "dev-jwt-secret-key-fallback" (environ !! "JWT_SECRET_KEY")
  ∧ JWT_ALGORITHM c = "HS256" ∧ JWT_DECODE_LEEWAY c = 10.
Proof.
  intros name c. subst c. unfold get_config. fold name.
  rewrite config_mapping_get.
  destruct (bool_decide (name = "production")) eqn:Hp.
  - apply bool_decide_eq_true_1 in Hp. rewrite Hp. done.
  - by destruct (bool_decide (name = "testing")).
Qed.

End MoreConfig.
